(** * vsync.py: relaying display VSync events to a serial-connected emitter

    A shallow embedding of [src/vsync.py] and the properties of its
    configuration merge, its start-up sequence and its relay loop.

    Python values are dynamically typed, so the values that travel from the
    JSON config file and from the command line are modelled by [pyval];
    floats are IEEE binary64 ([PrimFloat.float]), exactly Python's [float].
    The program talks to four collaborators (the file system, pyserial, the
    vendor DLL reached through ctypes, and the clock); what they answer is
    the [world] the program runs in, and what the program asks of them is
    recorded as a list of [event]s. *)

From Stdlib Require Import ZArith Floats Lia.
From Stdlib.Strings Require Import Ascii Byte.
From stdpp Require Import base strings pretty gmap list.

#[local] Set Warnings "-register-all".

Local Open Scope string_scope.
Local Open Scope list_scope.
Local Open Scope Z_scope.

(** ** Python values *)

(** [pathlib.Path(s)]: the path made from the text [s]. *)
Inductive path : Type := PurePath (s : string).

(** What [json.load] and argparse can hand to the program.  A [str] is the
    string of its code points, which the model takes below 256: there the
    decimal digits are 0-9 and the white space beyond ASCII's is U+0085 and
    U+00A0. *)
Inductive pyval : Type :=
| PNone
| PBool (b : bool)
| PInt (z : Z)
| PFloat (f : float)
| PStr (s : string)
| PList (l : list pyval)
| PDict (d : gmap string pyval)
| PPath (p : path).

(** Python's truth value testing, as used by [x or default]. *)
Definition truthy (v : pyval) : bool :=
  match v with
  | PNone => false
  | PBool b => b
  | PInt z => negb (Z.eqb z 0)
  | PFloat f => negb (PrimFloat.eqb f 0%float)
  | PStr s => negb (String.eqb s "")
  | PList l => match l with [] => false | _ => true end
  | PDict d => negb (bool_decide (d = ∅))
  | PPath _ => true
  end.

(** [x or y] *)
Definition py_or (x y : pyval) : pyval := if truthy x then x else y.

(** [None] for an option that argparse left at its default. *)
Definition of_option {A : Type} (inj : A -> pyval) (o : option A) : pyval :=
  match o with
  | Some a => inj a
  | None => PNone
  end.

(** ** Exceptions and results *)

(** The text of an f-string: literal pieces and [str()] of values. *)
Inductive piece : Type :=
| Lit (s : string)
| Str (v : pyval).

Inductive exit_arg : Type :=
| ExitCode (code : Z)
    (* [SystemExit(2)], as argparse raises it *)
| ExitMessage (msg : list piece).
    (* [SystemExit("...")]: the text goes to stderr, the status is 1 *)

(** The classes of the errors the program meets. *)
Inductive exn_class : Type :=
| ValueError
| JSONDecodeError       (* [json.JSONDecodeError], a [ValueError] *)
| TypeError
| KeyError
| OverflowError
| OSError
| SerialException       (* [serial.SerialException], an [OSError] *)
| AttributeError.

Definition same_class (c d : exn_class) : bool :=
  match c, d with
  | ValueError, ValueError | JSONDecodeError, JSONDecodeError
  | TypeError, TypeError | KeyError, KeyError | OverflowError, OverflowError
  | OSError, OSError | SerialException, SerialException
  | AttributeError, AttributeError => true
  | _, _ => false
  end.

(** [issubclass(c, base)] *)
Definition issubclass (c base : exn_class) : bool :=
  match c, base with
  | JSONDecodeError, ValueError => true
  | SerialException, OSError => true
  | _, _ => same_class c base
  end.

(** An exception: an interrupt, an exit, or an error with [str(exc)]. *)
Inductive exn : Type :=
| KeyboardInterrupt
| SystemExit (arg : exit_arg)
| Exception (cls : exn_class) (msg : string).

(** What a call does: it returns, it raises, or it has not come back yet
    (the vendor primitive blocks until the next edge). *)
Inductive result (A : Type) : Type :=
| Returns (a : A)
| Raises (e : exn)
| Waiting.
Arguments Returns {A} a.
Arguments Raises {A} e.
Arguments Waiting {A}.

(** ** The builtins the program applies to configuration values *)

(** [type(v).__name__], as error messages show it. *)
Definition type_name (v : pyval) : string :=
  match v with
  | PNone => "NoneType"
  | PBool _ => "bool"
  | PInt _ => "int"
  | PFloat _ => "float"
  | PStr _ => "str"
  | PList _ => "list"
  | PDict _ => "dict"
  | PPath _ => "WindowsPath"
  end.

(** [s1 in s2] for two strings: [s1] occurs in [s2]. *)
Fixpoint occurs_in (s1 s2 : string) : bool :=
  String.prefix s1 s2 ||
  match s2 with
  | String _ s2' => occurs_in s1 s2'
  | EmptyString => false
  end.

(** [key == v] for a string [key]. *)
Definition str_eq (key : string) (v : pyval) : bool :=
  match v with
  | PStr s => String.eqb key s
  | _ => false
  end.

(** [key in config] for a string [key]: a key of a dict, an element of a
    list, a part of a string; the other values are no containers. *)
Definition py_contains (config : pyval) (key : string) : result bool :=
  match config with
  | PDict d => Returns (bool_decide (is_Some (d !! key)))
  | PList l => Returns (existsb (str_eq key) l)
  | PStr s => Returns (occurs_in key s)
  | PNone | PBool _ | PInt _ | PFloat _ | PPath _ =>
      Raises (Exception TypeError
        ("argument of type '" +:+ type_name config +:+ "' is not iterable"))
  end.

(** [config[key]] for a string [key]. *)
Definition py_getitem (config : pyval) (key : string) : result pyval :=
  match config with
  | PDict d =>
      match d !! key with
      | Some v => Returns v
      | None => Raises (Exception KeyError ("'" +:+ key +:+ "'"))
      end
  | PList _ =>
      Raises (Exception TypeError "list indices must be integers or slices, not str")
  | PStr _ =>
      Raises (Exception TypeError "string indices must be integers, not 'str'")
  | PNone | PBool _ | PInt _ | PFloat _ | PPath _ =>
      Raises (Exception TypeError
        ("'" +:+ type_name config +:+ "' object is not subscriptable"))
  end.

(** ** Configuration merge *)

(** [_resolve_option(cli_value, config, key, *, required=False)].  The
    config is whatever [json.load] returned. *)
Definition _resolve_option (cli_value : pyval) (config : pyval)
    (key : string) (required : bool) : result pyval :=
  match cli_value with
  | PNone =>
      match py_contains config key with
      | Returns true => py_getitem config key
      | Returns false =>
          if required
          then Raises (Exception ValueError
                 ("Option '" +:+ key +:+
                  "' is required; supply it on the command line or config file"))
          else Returns PNone
      | Raises e => Raises e
      | Waiting => Waiting
      end
  | v => Returns v
  end.

(** ** [int()], [Path()] and the comparisons *)

(** [int(x)] on a float: truncation toward zero. *)
Definition int_of_float (f : float) : result Z :=
  match Prim2SF f with
  | S754_nan => Raises (Exception ValueError "cannot convert float NaN to integer")
  | S754_infinity _ =>
      Raises (Exception OverflowError "cannot convert float infinity to integer")
  | S754_zero _ => Returns 0
  | S754_finite neg m e =>
      let a := if 0 <=? e then Z.pos m * 2 ^ e else Z.pos m / 2 ^ (- e) in
      Returns (if neg then - a else a)
  end.

(** White space as [int()] skips it around the literal: ASCII's (9-13 and
    32), and U+0085 and U+00A0. *)
Definition is_space (c : ascii) : bool :=
  let n := N_of_ascii c in
  ((9 <=? n) && (n <=? 13) || (n =? 32) || (n =? 133) || (n =? 160))%N.

Definition digit (c : ascii) : option Z :=
  let n := Z.of_N (N_of_ascii c) in
  if (48 <=? n) && (n <=? 57) then Some (n - 48) else None.

Fixpoint lstrip (s : string) : string :=
  match s with
  | String c s' => if is_space c then lstrip s' else s
  | EmptyString => EmptyString
  end.

(** The run of digits at the head of [s], single underscores between them:
    its value, the number of its digits and what follows it; [None] when an
    underscore is doubled or comes last. *)
Fixpoint scan_digits (acc : Z) (n : nat) (after_underscore : bool) (s : string)
    : option (Z * nat * string) :=
  match s with
  | EmptyString => if after_underscore then None else Some (acc, n, s)
  | String c s' =>
      if Ascii.eqb c "_"
      then if after_underscore then None else scan_digits acc n true s'
      else match digit c with
           | Some d => scan_digits (10 * acc + d) (S n) false s'
           | None => if after_underscore then None else Some (acc, n, s)
           end
  end.

(** [repr(s)] of a string: the quote that needs no escape, the usual escapes,
    [\xNN] for what does not print. *)
Definition printable (c : ascii) : bool :=
  let n := N_of_ascii c in
  ((32 <=? n) && (n <=? 126) || (161 <=? n) && (n <=? 172) || (174 <=? n))%N.

Definition hex_digit (n : N) : ascii :=
  default "0"%char (String.get (N.to_nat n) "0123456789abcdef").

Definition escaped (quote c : ascii) : string :=
  if Ascii.eqb c quote || Ascii.eqb c "\"
  then String "\" (String c EmptyString)
  else if Ascii.eqb c "009" then "\t"
  else if Ascii.eqb c "010" then "\n"
  else if Ascii.eqb c "013" then "\r"
  else if printable c then String c EmptyString
  else String "\" (String "x"
         (String (hex_digit (N_of_ascii c / 16))
            (String (hex_digit (N_of_ascii c mod 16)) EmptyString))).

Fixpoint escape_all (quote : ascii) (s : string) : string :=
  match s with
  | EmptyString => EmptyString
  | String c s' => escaped quote c +:+ escape_all quote s'
  end.

(** The double quote, by its code. *)
Definition double_quote : ascii := "034".

Definition py_repr_str (s : string) : string :=
  let quote : ascii :=
    if occurs_in "'" s && negb (occurs_in (String double_quote EmptyString) s)
    then double_quote else "'"%char in
  String quote (escape_all quote s) +:+ String quote EmptyString.

(** The default of [sys.get_int_max_str_digits()]. *)
Definition int_max_str_digits : nat := 4300.

(** The [ValueError] of [int(s)] for a string that is no literal: the text
    ends with [repr(s)], cut at 200 characters. *)
Definition invalid_literal (s : string) : result Z :=
  Raises (Exception ValueError
    ("invalid literal for int() with base 10: " +:+
     String.substring 0 200 (py_repr_str s))).

(** The literal of [int(s)] after the white space and the sign: digits that
    single underscores may separate, then white space.  A literal of more
    digits than the interpreter's limit is refused. *)
Definition int_literal (s : string) (negative : bool) (literal : string)
    : result Z :=
  match literal with
  | String c _ =>
      if Ascii.eqb c "_" then invalid_literal s
      else
        match scan_digits 0 0 false literal with
        | Some (v, n, rest) =>
            if Nat.eqb n 0 then invalid_literal s
            else if Nat.ltb int_max_str_digits n
            then Raises (Exception ValueError
                   ("Exceeds the limit (" +:+ pretty int_max_str_digits +:+
                    " digits) for integer string conversion: value has " +:+
                    pretty n +:+
                    " digits; use sys.set_int_max_str_digits() to increase the limit"))
            else match lstrip rest with
                 | EmptyString => Returns (if negative then - v else v)
                 | _ => invalid_literal s
                 end
        | None => invalid_literal s
        end
  | EmptyString => invalid_literal s
  end.

(** [int(s)] on a string, base 10: white space, an optional sign, the
    literal. *)
Definition int_of_str (s : string) : result Z :=
  match lstrip s with
  | String c literal =>
      if Ascii.eqb c "-" then int_literal s true literal
      else if Ascii.eqb c "+" then int_literal s false literal
      else int_literal s false (String c literal)
  | EmptyString => int_literal s false EmptyString
  end.

(** [int(x)] *)
Definition py_int (v : pyval) : result Z :=
  match v with
  | PInt z => Returns z
  | PBool b => Returns (Z.b2z b)
  | PFloat f => int_of_float f
  | PStr s => int_of_str s
  | PNone | PList _ | PDict _ | PPath _ =>
      Raises (Exception TypeError
        ("int() argument must be a string, a bytes-like object or a real number, not '"
         +:+ type_name v +:+ "'"))
  end.

(** [Path(x)]: a path is made from a string or from a path. *)
Definition Path (v : pyval) : result path :=
  match v with
  | PStr s => Returns (PurePath s)
  | PPath p => Returns p
  | _ => Raises (Exception TypeError "expected str, bytes or os.PathLike object")
  end.

(** [x < n] for a float [x] and an int [n]: Python compares the two exactly. *)
Definition float_lt_int (x : float) (n : Z) : bool :=
  match Prim2SF x with
  | S754_nan => false
  | S754_infinity neg => neg
  | S754_zero _ => 0 <? n
  | S754_finite neg m e =>
      let a := if neg then Z.neg m else Z.pos m in
      if 0 <=? e then a * 2 ^ e <? n else a <? n * 2 ^ (- e)
  end.

(** [x >= n], likewise. *)
Definition float_ge_int (x : float) (n : Z) : bool :=
  match Prim2SF x with
  | S754_nan => false
  | S754_infinity neg => negb neg
  | S754_zero _ => n <=? 0
  | S754_finite neg m e =>
      let a := if neg then Z.neg m else Z.pos m in
      if 0 <=? e then n <=? a * 2 ^ e else n * 2 ^ (- e) <=? a
  end.

(** [x < v] for a float [x]: defined against floats and ints (bool is an
    int), a [TypeError] against anything else. *)
Definition py_float_lt (x : float) (v : pyval) : result bool :=
  match v with
  | PFloat y => Returns (x <? y)%float
  | PInt n => Returns (float_lt_int x n)
  | PBool b => Returns (float_lt_int x (Z.b2z b))
  | PNone | PStr _ | PList _ | PDict _ | PPath _ =>
      Raises (Exception TypeError
        ("'<' not supported between instances of 'float' and '" +:+
         type_name v +:+ "'"))
  end.

(** [x >= v], likewise; the program never evaluates it, the debounce law is
    stated with it. *)
Definition py_float_ge (x : float) (v : pyval) : result bool :=
  match v with
  | PFloat y => Returns (y <=? x)%float
  | PInt n => Returns (float_ge_int x n)
  | PBool b => Returns (float_ge_int x (Z.b2z b))
  | PNone | PStr _ | PList _ | PDict _ | PPath _ =>
      Raises (Exception TypeError
        ("'>=' not supported between instances of 'float' and '" +:+
         type_name v +:+ "'"))
  end.

(** ** What the program does to the outside *)

(** [--log-level], and the level of a logging call. *)
Inductive level : Type := Debug | Info | Warning | Error.

Definition levelno (l : level) : Z :=
  match l with
  | Debug => 10
  | Info => 20
  | Warning => 30
  | Error => 40
  end.

Inductive event : Type :=
| ParserError (message : string)
    (* [parser.error(message)]: usage and message on stderr *)
| LogRecord (lvl : level) (fmt : string) (args : list pyval)
    (* a record the logger lets through *)
| SerialOpen (port baudrate : pyval)     (* [serial.Serial(port, baudrate)] *)
| DllLoad (dll_path : path)              (* [ctypes.CDLL(str(dll_path))] *)
| SymbolLookup (name : string)           (* [dll.wait_for_vsync] *)
| Wait                                   (* [vsync_func()] *)
| SerialWrite (data : list byte)         (* [ser.write(data)] *)
| SerialClose.                           (* [ser.close()] *)

(** A computation: the calls it made, in order, and how it ended. *)
Definition proc (A : Type) : Type := list event * result A.

Definition ret {A : Type} (a : A) : proc A := ([], Returns a).

Definition bind {A B : Type} (m : proc A) (k : A -> proc B) : proc B :=
  match m with
  | (tr, Returns a) => let '(tr', r) := k a in (tr ++ tr', r)
  | (tr, Raises e) => (tr, Raises e)
  | (tr, Waiting) => (tr, Waiting)
  end.

Notation "'let*' x := m 'in' k" := (bind m (fun x => k))
  (at level 10, x name, m at level 100, k at level 200).
Notation "m ';;' k" := (bind m (fun _ => k))
  (at level 100, k at level 200, right associativity).

(** A call to a collaborator: the call is recorded, the world answers. *)
Definition call {A : Type} (e : event) (answer : result A) : proc A :=
  ([e], answer).

(** A computation inside the interpreter, with no outside call. *)
Definition pure {A : Type} (r : result A) : proc A := ([], r).

(** [try: body  except <the classes handler accepts>: handler] *)
Definition try_except {A : Type} (body : proc A)
    (handler : exn -> option (proc A)) : proc A :=
  match body with
  | (tr, Raises e) =>
      match handler e with
      | Some h => let '(tr', r) := h in (tr ++ tr', r)
      | None => (tr, Raises e)
      end
  | other => other
  end.

(** [except base as exc: h(str(exc))] *)
Definition except {A : Type} (base : exn_class) (h : string -> proc A) (e : exn)
    : option (proc A) :=
  match e with
  | Exception cls exc => if issubclass cls base then Some (h exc) else None
  | _ => None
  end.

(** [except KeyboardInterrupt: h] *)
Definition except_KeyboardInterrupt {A : Type} (h : proc A) (e : exn)
    : option (proc A) :=
  match e with
  | KeyboardInterrupt => Some h
  | _ => None
  end.

(** [try: body  finally: cleanup].  While the body has not come back the
    cleanup has not run. *)
Definition try_finally {A : Type} (body : proc A) (cleanup : proc unit) : proc A :=
  match body with
  | (tr, Waiting) => (tr, Waiting)
  | (tr, r) =>
      let '(tr', c) := cleanup in
      (tr ++ tr',
       match c with
       | Returns _ => r
       | Raises e => Raises e
       | Waiting => Waiting
       end)
  end.

(** ** Constants *)

(** [PULSE_BYTE = b"\xAA"] *)
Definition PULSE_BYTE : list byte := [xaa].

(** The built-in defaults of [main]: [921_600], [0.0005] (the binary64
    nearest to it) and [0]. *)
Definition default_baudrate : pyval := PInt 921600.
Definition default_pulse_threshold : pyval := PFloat 0x1.0624dd2f1a9fcp-11%float.
Definition default_warmup : pyval := PInt 0.

(** ** Start-up helpers *)

(** The config file as [_load_config] finds it: absent, or there, and then
    what opening and parsing it does.  A file that parses holds any JSON
    value: the annotation [Dict[str, Any]] is not checked. *)
Inductive config_file : Type :=
| Missing                          (* [config_path.exists()] is false *)
| Present (load : result pyval).   (* [open] and [json.load] *)

(** A file that opens and parses to a JSON object. *)
Definition Parsed (d : gmap string pyval) : config_file :=
  Present (Returns (PDict d)).

(** [_load_config(config_path)] *)
Definition _load_config (config_path : path) (f : config_file)
    : result pyval :=
  match f with
  | Missing => Returns (PDict ∅)
  | Present (Raises (Exception cls exc)) =>
      if issubclass cls OSError || issubclass cls JSONDecodeError
      then Raises (SystemExit (ExitMessage
             [Lit "Failed to load config '"; Str (PPath config_path); Lit "': ";
              Lit exc]))
      else Raises (Exception cls exc)
  | Present load => load
  end.

(** [_open_serial(port, baudrate)] *)
Definition _open_serial (port baudrate : pyval) (device : result unit) : proc unit :=
  try_except (call (SerialOpen port baudrate) device)
    (except SerialException (fun exc =>
       pure (Raises (SystemExit (ExitMessage
         [Lit "Failed to open serial port '"; Str port; Lit "': "; Lit exc]))))).

(** [_create_vsync_waiter(dll_path)] *)
Definition _create_vsync_waiter (dll_path : path)
    (cdll symbol : result unit) : proc unit :=
  call (DllLoad dll_path) cdll ;;
  call (SymbolLookup "wait_for_vsync") symbol.

(** [LOGGER.info(fmt, *args)] under [logging.basicConfig(level=...)]: the
    record is formatted and written when the configured level lets INFO
    through. *)
Definition LOGGER_info (configured : level) (fmt : string) (args : list pyval)
    : proc unit :=
  if levelno configured <=? levelno Info
  then ([LogRecord Info fmt args], Returns tt)
  else ret tt.

(** [parser.error(message)]: usage and message on stderr, exit status 2. *)
Definition parser_error {A : Type} (message : string) : proc A :=
  ([ParserError message], Raises (SystemExit (ExitCode 2))).

(** ** The relay loop *)

(** What the world answers during one pass of the loop: the vendor
    primitive, then the clock, then the serial write.  The later answers are
    consulted only if the pass gets that far.  An interrupt (Ctrl-C) shows
    as [Raises KeyboardInterrupt] at the call it cuts short. *)
Record tick : Type := Tick {
  vsync_func : result Z;
  perf_counter : result float;
  ser_write : result unit;
}.

(** One pass of the loop body: the calls made, the value of [last_pulse]
    afterwards, and whether the loop goes on. *)
Record pass : Type := Pass {
  calls : list event;
  pulse : float;
  next : result unit;
}.

(** The body of [while True:] *)
Definition iteration (pulse_threshold : pyval) (last_pulse : float) (t : tick) : pass :=
  match vsync_func t with
  | Returns status =>
      if negb (status =? 1)
      then Pass [Wait] last_pulse (Returns tt)                        (* continue *)
      else
        match perf_counter t with
        | Returns now =>
            match py_float_lt (now - last_pulse)%float pulse_threshold with
            | Returns true => Pass [Wait] last_pulse (Returns tt)      (* continue *)
            | Returns false =>
                Pass [Wait; SerialWrite PULSE_BYTE] now (ser_write t)
            | Raises e => Pass [Wait] last_pulse (Raises e)
            | Waiting => Pass [Wait] last_pulse Waiting
            end
        | Raises e => Pass [Wait] last_pulse (Raises e)
        | Waiting => Pass [Wait] last_pulse Waiting
        end
  | Raises e => Pass [Wait] last_pulse (Raises e)
  | Waiting => Pass [Wait] last_pulse Waiting
  end.

(** [while True: ...] over the answers of the world.  When the answers run
    out the program is blocked in the vendor primitive. *)
Fixpoint relay (pulse_threshold : pyval) (last_pulse : float) (ts : list tick)
    : proc unit :=
  match ts with
  | [] => ([Wait], Waiting)
  | t :: ts' =>
      let p := iteration pulse_threshold last_pulse t in
      match next p with
      | Returns _ =>
          let '(tr, r) := relay pulse_threshold (pulse p) ts' in
          (calls p ++ tr, r)
      | Raises e => (calls p, Raises e)
      | Waiting => (calls p, Waiting)
      end
  end.

(** [for _ in range(warmup): vsync_func()]; what is left of the answers is
    handed on. *)
Fixpoint warm_up (n : nat) (ts : list tick) : proc (list tick) :=
  match n with
  | O => ret ts
  | S n' =>
      match ts with
      | [] => ([Wait], Waiting)
      | t :: ts' =>
          match vsync_func t with
          | Returns _ => let '(tr, r) := warm_up n' ts' in (Wait :: tr, r)
          | Raises e => ([Wait], Raises e)
          | Waiting => ([Wait], Waiting)
          end
      end
  end.

(** The sentinel [last_pulse = 0.0]. *)
Definition no_pulse : float := 0%float.

(** The body of the [try:] (lines 129-140). *)
Definition relay_session (pulse_threshold : pyval) (warmup : Z) (ts : list tick)
    : proc unit :=
  let* rest := warm_up (Z.to_nat warmup) ts in
  relay pulse_threshold no_pulse rest.

(** [try: ... except KeyboardInterrupt: ... finally: ser.close()], then
    [return 0] (lines 128-145). *)
Definition guarded_relay (configured : level) (pulse_threshold : pyval)
    (warmup : Z) (ts : list tick) : proc Z :=
  try_finally
    (try_except (relay_session pulse_threshold warmup ts)
       (except_KeyboardInterrupt
          (LOGGER_info configured "Exiting on user request" [])))
    (call SerialClose (Returns tt)) ;;
  ret 0.

(** ** [main] *)

(** The namespace [parser.parse_args(argv)] returns. *)
Record arguments : Type := Arguments {
  arg_config : path;
  arg_port : option string;
  arg_dll : option string;
  arg_baudrate : option Z;
  arg_pulse_threshold : option float;
  arg_warmup : option Z;
  arg_log_level : level;
}.

(** The merged configuration (the locals of [main] after line 116). *)
Record settings : Type := Settings {
  port : pyval;
  dll_path : path;
  baudrate : pyval;
  pulse_threshold : pyval;
  warmup : Z;
}.

(** Line 114: [_resolve_option(args.baudrate, config, "baudrate") or 921_600] *)
Definition merged_baudrate (cli_value : pyval) (config : pyval)
    : proc pyval :=
  let* b := pure (_resolve_option cli_value config "baudrate" false) in
  ret (py_or b default_baudrate).

(** Line 115:
    [_resolve_option(args.pulse_threshold, config, "pulse_threshold") or 0.0005] *)
Definition merged_pulse_threshold (cli_value : pyval) (config : pyval)
    : proc pyval :=
  let* p := pure (_resolve_option cli_value config "pulse_threshold" false) in
  ret (py_or p default_pulse_threshold).

(** Line 116: [int(_resolve_option(args.warmup, config, "warmup") or 0)] *)
Definition merged_warmup (cli_value : pyval) (config : pyval)
    : proc Z :=
  let* w := pure (_resolve_option cli_value config "warmup" false) in
  pure (py_int (py_or w default_warmup)).

(** Lines 108-112: the required options; a [ValueError] becomes
    [parser.error]. *)
Definition required_options (args : arguments) (config : pyval)
    : proc (pyval * path) :=
  try_except
    (let* port :=
       pure (_resolve_option (of_option PStr (arg_port args)) config "port" true) in
     let* dll :=
       pure (_resolve_option (of_option PStr (arg_dll args)) config "dll" true) in
     let* dll_path := pure (Path dll) in
     ret (port, dll_path))
    (except ValueError (fun exc => parser_error exc)).

(** Lines 108-116: every option resolved against the command line and the
    config file. *)
Definition merge_config (args : arguments) (config : pyval)
    : proc settings :=
  let* required := required_options args config in
  let* baudrate := merged_baudrate (of_option PInt (arg_baudrate args)) config in
  let* pulse_threshold :=
    merged_pulse_threshold (of_option PFloat (arg_pulse_threshold args)) config in
  let* warmup := merged_warmup (of_option PInt (arg_warmup args)) config in
  ret (Settings required.1 required.2 baudrate pulse_threshold warmup).

(** The collaborators of one run. *)
Record world : Type := World {
  file : config_file;           (* the config file *)
  device : result unit;         (* what opening the serial port does *)
  cdll : result unit;           (* what loading the DLL does *)
  symbol : result unit;         (* what looking up [wait_for_vsync] does *)
  ticks : list tick;            (* the vendor primitive, the clock, the writes *)
}.

(** Lines 106-126: everything [main] does before it enters the [try:]. *)
Definition startup (args : arguments) (w : world) : proc settings :=
  let* config := pure (_load_config (arg_config args) (file w)) in
  let* s := merge_config args config in
  let configured := arg_log_level args in
  LOGGER_info configured "Opening serial port %s @ %d baud" [port s; baudrate s] ;;
  _open_serial (port s) (baudrate s) (device w) ;;
  LOGGER_info configured "Loading VSYNC waiter DLL from %s" [PPath (dll_path s)] ;;
  _create_vsync_waiter (dll_path s) (cdll w) (symbol w) ;;
  LOGGER_info configured
    "Starting VSYNC relay (pulse_threshold=%s s, warmup=%s frames)"
    [pulse_threshold s; PInt (warmup s)] ;;
  ret s.

(** [main(argv)], from the parsed arguments on. *)
Definition main (args : arguments) (w : world) : proc Z :=
  let* s := startup args w in
  guarded_relay (arg_log_level args) (pulse_threshold s) (warmup s) (ticks w).

(** [sys.exit(main())]: the status the process ends with.  [None] while the
    program is still running, and for an interrupt nobody caught (the
    interpreter then ends the process the way the platform ends an
    interrupted one). *)
Definition exit_status (r : result Z) : option Z :=
  match r with
  | Returns code => Some code
  | Raises (SystemExit (ExitCode code)) => Some code
  | Raises (SystemExit (ExitMessage _)) => Some 1
  | Raises KeyboardInterrupt => None
  | Raises (Exception _ _) => Some 1
  | Waiting => None
  end.

(** * The vocabulary of the statements *)

(** The call of the wait primitive came back, with whatever status. *)
Definition came_back (t : tick) : bool :=
  match vsync_func t with
  | Returns _ => true
  | _ => false
  end.

(** The wait primitive came back with a status other than ACCEPT. *)
Definition spurious (t : tick) : bool :=
  match vsync_func t with
  | Returns status => negb (status =? 1)
  | _ => false
  end.

(** An event is harmless to the wire when, if it is a write, it writes the
    marker byte. *)
Definition marker_only (e : event) : Prop :=
  forall data, e = SerialWrite data -> data = PULSE_BYTE.

(** The event is a serial write. *)
Definition is_write (e : event) : bool :=
  match e with
  | SerialWrite _ => true
  | _ => false
  end.

(** The writes of a trace, in order. *)
Definition writes (tr : list event) : list event := List.filter is_write tr.

(** The status of the wait primitive that signals a new edge. *)
Definition ACCEPT : Z := 1.

(** [elapsed < threshold], for a threshold that is a number (a float, an
    int or a bool). *)
Definition below (elapsed : float) (threshold : pyval) : bool :=
  match py_float_lt elapsed threshold with
  | Returns b => b
  | _ => false
  end.

(** The RUNNING transition in the words of the design (section 4.4), not
    taken from the code: over the edges the wait primitive reports, each a
    status and the clock reading at its return, an edge is accepted when its
    status is ACCEPT and the time elapsed since the last accepted edge is
    not below the threshold; an accepted edge becomes the last accepted one.
    The result lists the clock readings of the accepted edges. *)
Fixpoint accepted_edges (threshold : pyval) (last_accepted_time : float)
    (edges : list (Z * float)) : list float :=
  match edges with
  | [] => []
  | (status, now) :: rest =>
      if (status =? ACCEPT) && negb (below (now - last_accepted_time)%float threshold)
      then now :: accepted_edges threshold now rest
      else accepted_edges threshold last_accepted_time rest
  end.

(** The time of the last accepted pulse after these edges; [initial] when
    none of them was accepted. *)
Definition last_accepted (threshold : pyval) (initial : float)
    (edges : list (Z * float)) : float :=
  List.last (accepted_edges threshold initial edges) initial.

(** What the design has the loop do over these edges: one wait for each,
    and after the wait of an accepted edge one write of the marker byte. *)
Fixpoint relayed (threshold : pyval) (last_accepted_time : float)
    (edges : list (Z * float)) : list event :=
  match edges with
  | [] => []
  | (status, now) :: rest =>
      if (status =? ACCEPT) && negb (below (now - last_accepted_time)%float threshold)
      then Wait :: SerialWrite [xaa] :: relayed threshold now rest
      else Wait :: relayed threshold last_accepted_time rest
  end.

(** The answers of a world in which every call comes back. *)
Definition edge_tick (edge : Z * float) : tick :=
  Tick (Returns edge.1) (Returns edge.2) (Returns tt).

(** The record [LOGGER.info("Exiting on user request")] leaves behind. *)
Definition exit_record (configured : level) : list event :=
  if levelno configured <=? levelno Info
  then [LogRecord Info "Exiting on user request" []]
  else [].

(** How [guarded_relay] ends, by how the body of its [try:] ends. *)
Definition shutdown (configured : level) (body : proc unit) : proc Z :=
  match body with
  | (tr, Raises KeyboardInterrupt) =>
      (tr ++ exit_record configured ++ [SerialClose], Returns 0)
  | (tr, Raises e) => (tr ++ [SerialClose], Raises e)
  | (tr, Waiting) => (tr, Waiting)
  | (tr, Returns _) => (tr ++ [SerialClose], Returns 0)
  end.

(** What [_resolve_option] yields for an option that is not required. *)
Definition resolved (cli_value : pyval) (config : gmap string pyval) (key : string)
    : pyval :=
  match cli_value with
  | PNone => default PNone (config !! key)
  | v => v
  end.

(** The option is given on the command line, or the config is a JSON
    object and has its key. *)
Definition supplied (cli : option string) (config : pyval) (key : string) : bool :=
  match cli, config with
  | Some _, _ => true
  | None, PDict d => bool_decide (is_Some (d !! key))
  | None, _ => false
  end.

(** The option is not on the command line, and [key in config] is false:
    the config is a JSON object without the key, or an array or a string in
    which the key does not occur. *)
Definition lacks (cli : option string) (config : pyval) (key : string) : bool :=
  match cli, py_contains config key with
  | None, Returns false => true
  | _, _ => false
  end.

(** The required option [main] finds missing first, if any. *)
Definition first_missing (args : arguments) (config : pyval) : option string :=
  if lacks (arg_port args) config "port" then Some "port"
  else if supplied (arg_port args) config "port" && lacks (arg_dll args) config "dll"
       then Some "dll"
       else None.

(** The text of the [ValueError] that [_resolve_option] raises. *)
Definition required_message (key : string) : string :=
  "Option '" +:+ key +:+ "' is required; supply it on the command line or config file".

(** The log lines of start-up, as far as the configured level lets them
    through. *)
Definition opening_record (configured : level) (s : settings) : list event :=
  (LOGGER_info configured "Opening serial port %s @ %d baud"
     [port s; baudrate s]).1.

Definition loading_record (configured : level) (s : settings) : list event :=
  (LOGGER_info configured "Loading VSYNC waiter DLL from %s" [PPath (dll_path s)]).1.

Definition starting_record (configured : level) (s : settings) : list event :=
  (LOGGER_info configured
     "Starting VSYNC relay (pulse_threshold=%s s, warmup=%s frames)"
     [pulse_threshold s; PInt (warmup s)]).1.

(** The text [_open_serial] exits with. *)
Definition serial_failure (port : pyval) (exc : string) : exn :=
  SystemExit (ExitMessage
    [Lit "Failed to open serial port '"; Str port; Lit "': "; Lit exc]).

(** The text [_load_config] exits with. *)
Definition config_failure (config_path : path) (exc : string) : exn :=
  SystemExit (ExitMessage
    [Lit "Failed to load config '"; Str (PPath config_path); Lit "': "; Lit exc]).

(** The event is a log record. *)
Definition is_log (e : event) : bool :=
  match e with
  | LogRecord _ _ _ => true
  | _ => false
  end.

(** A trace without its log records. *)
Definition quiet (tr : list event) : list event :=
  List.filter (fun e => negb (is_log e)) tr.

(** Two computations that differ in their log records at most. *)
Definition same_but_logs {A : Type} (m1 m2 : proc A) : Prop :=
  quiet m1.1 = quiet m2.1 /\ m1.2 = m2.2.

(** The same arguments with another [--log-level]. *)
Definition with_log_level (l : level) (args : arguments) : arguments :=
  Arguments (arg_config args) (arg_port args) (arg_dll args) (arg_baudrate args)
    (arg_pulse_threshold args) (arg_warmup args) l.

(** The same world with another config file. *)
Definition with_file (f : config_file) (w : world) : world :=
  World f (device w) (cdll w) (symbol w) (ticks w).

(** The keys of the config file that [main] reads. *)
Definition option_keys : list string :=
  ["port"; "dll"; "baudrate"; "pulse_threshold"; "warmup"].

(** The wait primitive came back with ACCEPT. *)
Definition accepts (t : tick) : bool :=
  match vsync_func t with
  | Returns status => status =? 1
  | _ => false
  end.

(** A value a float can be compared with. *)
Definition comparable (v : pyval) : bool :=
  match v with
  | PFloat _ | PInt _ | PBool _ => true
  | _ => false
  end.

(** A string without a decimal digit. *)
Fixpoint no_digit (s : string) : bool :=
  match s with
  | EmptyString => true
  | String c s' =>
      match digit c with
      | Some _ => false
      | None => no_digit s'
      end
  end.

(** Values that are no integer whatever reading one gives them, with the
    class of the exception [int()] answers them with: null, arrays, objects
    and paths ([TypeError]); NaN ([ValueError]) and the infinities
    ([OverflowError]); strings without a decimal digit ([ValueError]). *)
Definition not_an_int (v : pyval) : option exn_class :=
  match v with
  | PNone | PList _ | PDict _ | PPath _ => Some TypeError
  | PFloat f =>
      match Prim2SF f with
      | S754_nan => Some ValueError
      | S754_infinity _ => Some OverflowError
      | _ => None
      end
  | PStr s => if no_digit s then Some ValueError else None
  | PBool _ | PInt _ => None
  end.

(** * Properties *)

(** ** Comparisons: [>=] excludes [<] *)

Lemma SFcompare_swap (x y : spec_float) (c : comparison) :
  SFcompare x y = Some c -> SFcompare y x = Some (CompOpp c).
Proof.
  destruct x as [sx|sx| |sx mx ex], y as [sy|sy| |sy my ey]; simpl;
    try discriminate;
    try (intros [= <-];
         repeat (match goal with
                 | |- context [if ?b then _ else _] => destruct b
                 end);
         reflexivity).
  destruct sx, sy; intros [= <-]; try reflexivity;
    change (Pos.compare_cont Eq my mx) with (Pos.compare my mx);
    change (Pos.compare_cont Eq mx my) with (Pos.compare mx my);
    rewrite (Z.compare_antisym ey ex), (Pos.compare_antisym my mx);
    destruct (ey ?= ex)%Z; simpl; try reflexivity;
    destruct (my ?= mx)%positive; reflexivity.
Qed.

Lemma float_leb_not_ltb (x y : float) :
  (y <=? x)%float = true -> (x <? y)%float = false.
Proof.
  rewrite leb_spec, ltb_spec. unfold SFleb, SFltb.
  destruct (SFcompare (Prim2SF y) (Prim2SF x)) as [c|] eqn:E.
  - rewrite (SFcompare_swap _ _ _ E). destruct c; simpl; congruence.
  - destruct (SFcompare (Prim2SF x) (Prim2SF y)) as [c|] eqn:E'; [|reflexivity].
    rewrite (SFcompare_swap _ _ _ E') in E. discriminate.
Qed.

Lemma float_ge_int_not_lt (x : float) (n : Z) :
  float_ge_int x n = true -> float_lt_int x n = false.
Proof.
  unfold float_ge_int, float_lt_int.
  destruct (Prim2SF x) as [s|s| |s m e].
  - lia.
  - destruct s; simpl; congruence.
  - reflexivity.
  - simpl. destruct (0 <=? e); lia.
Qed.

Lemma py_float_ge_not_lt (x : float) (v : pyval) :
  py_float_ge x v = Returns true -> py_float_lt x v = Returns false.
Proof.
  destruct v; simpl; try discriminate; intros [= H]; f_equal.
  - by apply float_ge_int_not_lt.
  - by apply float_ge_int_not_lt.
  - by apply float_leb_not_ltb.
Qed.

(** ** The debounce filter *)

Section Debounce.
Variables (threshold : pyval) (last_pulse : float).

Lemma iteration_spurious (t : tick) (status : Z) :
  vsync_func t = Returns status -> status <> 1 ->
  iteration threshold last_pulse t = Pass [Wait] last_pulse (Returns tt).
Proof.
  intros Hv Hs. unfold iteration. rewrite Hv.
  destruct (Z.eqb_spec status 1) as [->|_]; [done|reflexivity].
Qed.

Lemma iteration_debounced (t : tick) (now : float) :
  vsync_func t = Returns 1 -> perf_counter t = Returns now ->
  py_float_lt (now - last_pulse)%float threshold = Returns true ->
  iteration threshold last_pulse t = Pass [Wait] last_pulse (Returns tt).
Proof.
  intros Hv Hc Hlt. unfold iteration. by rewrite Hv, Hc, Hlt.
Qed.

Lemma iteration_accepted (t : tick) (now : float) :
  vsync_func t = Returns 1 -> perf_counter t = Returns now ->
  py_float_lt (now - last_pulse)%float threshold = Returns false ->
  iteration threshold last_pulse t =
    Pass [Wait; SerialWrite PULSE_BYTE] now (ser_write t).
Proof.
  intros Hv Hc Hlt. unfold iteration. by rewrite Hv, Hc, Hlt.
Qed.
End Debounce.

(** ** Warm-up *)

Lemma warm_up_only_waits (n : nat) (ts : list tick) :
  Forall (fun e => e = Wait) (warm_up n ts).1.
Proof.
  revert ts. induction n as [|n IH]; intros ts; simpl; [constructor|].
  destruct ts as [|t ts]; simpl; [by repeat constructor|].
  destruct (vsync_func t); simpl; try by repeat constructor.
  specialize (IH ts). destruct (warm_up n ts) as [tr r]. simpl in *.
  by constructor.
Qed.

Lemma warm_up_app (warm rest : list tick) :
  forallb came_back warm = true ->
  warm_up (length warm) (warm ++ rest) = (replicate (length warm) Wait, Returns rest).
Proof.
  induction warm as [|t warm IH]; simpl; [done|].
  unfold came_back at 1. destruct (vsync_func t); simpl; try discriminate.
  intros H. by rewrite (IH H).
Qed.

Lemma relay_session_warm (threshold : pyval) (warm rest : list tick) :
  forallb came_back warm = true ->
  relay_session threshold (Z.of_nat (length warm)) (warm ++ rest) =
    (replicate (length warm) Wait ++ (relay threshold no_pulse rest).1,
     (relay threshold no_pulse rest).2).
Proof.
  intros Hw. unfold relay_session. rewrite Nat2Z.id, (warm_up_app _ _ Hw). simpl.
  by destruct (relay threshold no_pulse rest).
Qed.

(** C2 (warm-up law).  With [warmup = N], the first [N] calls of the wait
    primitive are discarded whatever status they return: the run is [N]
    waits followed by the relay loop started on the remaining answers with
    [last_pulse] at its initial value, so no byte is written for them, the
    clock is not read and the threshold is not consulted.  Whatever the
    first calls do, the warm-up issues nothing but waits. *)
Theorem warm_up_law (N : nat) (threshold : pyval) (warm rest : list tick) :
  length warm = N ->
  forallb came_back warm = true ->
  relay_session threshold (Z.of_nat N) (warm ++ rest) =
    (replicate N Wait ++ (relay threshold no_pulse rest).1,
     (relay threshold no_pulse rest).2) /\
  (forall ts, Forall (fun e => e = Wait) (warm_up N ts).1).
Proof.
  intros <- Hw. split; [by apply relay_session_warm|].
  intros ts. apply warm_up_only_waits.
Qed.

(** Three warm-up calls returning 1, 0 and 7, then an accepted edge. *)
Lemma warm_up_law_witness :
  relay_session default_pulse_threshold 3
    ([Tick (Returns 1) (Returns 5%float) (Returns tt);
      Tick (Returns 0) (Returns 6%float) (Returns tt);
      Tick (Returns 7) (Raises KeyboardInterrupt) (Returns tt)] ++
     [Tick (Returns 1) (Returns 8%float) (Returns tt)]) =
    ([Wait; Wait; Wait; Wait; SerialWrite PULSE_BYTE; Wait], Waiting).
Proof.
  apply (proj1 (warm_up_law 3 default_pulse_threshold
    [Tick (Returns 1) (Returns 5%float) (Returns tt);
     Tick (Returns 0) (Returns 6%float) (Returns tt);
     Tick (Returns 7) (Raises KeyboardInterrupt) (Returns tt)]
    [Tick (Returns 1) (Returns 8%float) (Returns tt)]
    eq_refl eq_refl)).
Defined.

(** ** The first pulse after warm-up *)

Lemma relay_cons (threshold : pyval) (last_pulse : float) (t : tick) (ts : list tick) :
  relay threshold last_pulse (t :: ts) =
    ((calls (iteration threshold last_pulse t), next (iteration threshold last_pulse t)) ;;
     relay threshold (pulse (iteration threshold last_pulse t)) ts).
Proof.
  simpl. destruct (next (iteration threshold last_pulse t)); simpl; try reflexivity.
Qed.

Lemma relay_spurious (threshold : pyval) (last_pulse : float) (idle ts : list tick) :
  forallb spurious idle = true ->
  relay threshold last_pulse (idle ++ ts) =
    (replicate (length idle) Wait ++ (relay threshold last_pulse ts).1,
     (relay threshold last_pulse ts).2).
Proof.
  induction idle as [|t idle IH].
  - intros _. simpl app. by destruct (relay threshold last_pulse ts).
  - simpl forallb. intros [Ht Hi]%andb_prop.
    unfold spurious in Ht. destruct (vsync_func t) as [status| |] eqn:Hv; try discriminate.
    assert (status <> 1) as Hs by (intros ->; discriminate).
    change ((t :: idle) ++ ts) with (t :: (idle ++ ts)).
    rewrite relay_cons, (iteration_spurious _ _ _ _ Hv Hs). simpl.
    by rewrite (IH Hi).
Qed.

(** ** The debounce law over a run *)

Lemma last_cons {A : Type} (a d : A) (l : list A) :
  List.last (a :: l) d = List.last l a.
Proof.
  revert a d. induction l as [|b l IH]; intros a d; [done|].
  change (List.last (a :: b :: l) d) with (List.last (b :: l) d).
  by rewrite (IH b d), (IH b a).
Qed.

Lemma comparable_lt (threshold : pyval) (x : float) :
  comparable threshold = true -> py_float_lt x threshold = Returns (below x threshold).
Proof. unfold below. by destruct threshold. Qed.

Lemma lt_comparable (threshold : pyval) (x : float) (b : bool) :
  py_float_lt x threshold = Returns b -> comparable threshold = true.
Proof. by destruct threshold. Qed.

Lemma ge_comparable (threshold : pyval) (x : float) (b : bool) :
  py_float_ge x threshold = Returns b -> comparable threshold = true.
Proof. by destruct threshold. Qed.

Lemma iteration_edge (threshold : pyval) (last_pulse : float) (status : Z) (now : float) :
  comparable threshold = true ->
  iteration threshold last_pulse (edge_tick (status, now)) =
    if (status =? ACCEPT) && negb (below (now - last_pulse)%float threshold)
    then Pass [Wait; SerialWrite PULSE_BYTE] now (Returns tt)
    else Pass [Wait] last_pulse (Returns tt).
Proof.
  intros Hc. unfold iteration, edge_tick, ACCEPT. simpl.
  rewrite (comparable_lt _ _ Hc).
  destruct (status =? 1); simpl; [|done].
  by destruct (below (now - last_pulse) threshold).
Qed.

(** The loop over edges whose calls all come back does what the design
    says, and goes on with the time of the last accepted pulse. *)
Lemma relay_edges (threshold : pyval) (last_pulse : float)
    (edges : list (Z * float)) (ts : list tick) :
  comparable threshold = true ->
  relay threshold last_pulse ((edge_tick <$> edges) ++ ts) =
    ((relayed threshold last_pulse edges, Returns tt) ;;
     relay threshold (last_accepted threshold last_pulse edges) ts).
Proof.
  intros Hc. revert last_pulse.
  induction edges as [|[status now] edges IH]; intros last_pulse.
  - unfold last_accepted. simpl. by destruct (relay threshold last_pulse ts).
  - rewrite fmap_cons. change ((?x :: ?l) ++ ts) with (x :: (l ++ ts)).
    rewrite relay_cons, (iteration_edge _ _ _ _ Hc). unfold last_accepted.
    cbn [accepted_edges relayed].
    destruct ((status =? ACCEPT) && negb (below (now - last_pulse) threshold));
      rewrite ?last_cons, IH; unfold last_accepted; simpl;
      by destruct (relay threshold _ ts).
Qed.

(** C1 (debounce law).  In a run of the relay loop, after [N] warm-up calls
    and any edges whose calls all came back, take a pass in which the wait
    primitive returns ACCEPT (1) and the clock reads [now].  If the time
    elapsed since the last accepted pulse (0.0 when there was none) is
    strictly less than the threshold, the pass only waits: nothing is
    written, and the loop goes on with the time of the last accepted pulse
    unchanged.  If the elapsed time is greater than or equal to the
    threshold, the pass writes the marker byte once, and the loop goes on
    with [now] as the time of the last accepted pulse.  The same holds of
    the loop body for any value of [last_pulse]. *)
Theorem debounce_law (N : nat) (threshold : pyval) (warm : list tick)
    (history : list (Z * float)) (t : tick) (now : float) (rest : list tick) :
  length warm = N ->
  forallb came_back warm = true ->
  vsync_func t = Returns 1 ->
  perf_counter t = Returns now ->
  (py_float_lt (now - last_accepted threshold no_pulse history)%float threshold =
     Returns true ->
   relay_session threshold (Z.of_nat N) (warm ++ (edge_tick <$> history) ++ t :: rest) =
     ((replicate N Wait ++ relayed threshold no_pulse history ++ [Wait], Returns tt) ;;
      relay threshold (last_accepted threshold no_pulse history) rest)) /\
  (py_float_ge (now - last_accepted threshold no_pulse history)%float threshold =
     Returns true ->
   relay_session threshold (Z.of_nat N) (warm ++ (edge_tick <$> history) ++ t :: rest) =
     ((replicate N Wait ++ relayed threshold no_pulse history ++
       [Wait; SerialWrite PULSE_BYTE], ser_write t) ;;
      relay threshold now rest)) /\
  (forall last_pulse,
     (py_float_lt (now - last_pulse)%float threshold = Returns true ->
        iteration threshold last_pulse t = Pass [Wait] last_pulse (Returns tt)) /\
     (py_float_ge (now - last_pulse)%float threshold = Returns true ->
        iteration threshold last_pulse t =
          Pass [Wait; SerialWrite PULSE_BYTE] now (ser_write t))).
Proof.
  intros <- Hw Hv Hc.
  assert (forall last_pulse,
     (py_float_lt (now - last_pulse)%float threshold = Returns true ->
        iteration threshold last_pulse t = Pass [Wait] last_pulse (Returns tt)) /\
     (py_float_ge (now - last_pulse)%float threshold = Returns true ->
        iteration threshold last_pulse t =
          Pass [Wait; SerialWrite PULSE_BYTE] now (ser_write t))) as Hpass.
  { intros last_pulse. split; intros H.
    - by apply (iteration_debounced _ _ _ now).
    - apply py_float_ge_not_lt in H. by apply iteration_accepted. }
  split; [|split; [|exact Hpass]]; intros H;
    destruct (Hpass (last_accepted threshold no_pulse history)) as [Hlt Hge].
  - rewrite (relay_session_warm _ _ _ Hw), (relay_edges _ _ _ _ (lt_comparable _ _ _ H)).
    rewrite relay_cons, (Hlt H). simpl.
    destruct (relay threshold (last_accepted threshold no_pulse history) rest).
    simpl. by rewrite <- !app_assoc.
  - rewrite (relay_session_warm _ _ _ Hw), (relay_edges _ _ _ _ (ge_comparable _ _ _ H)).
    rewrite relay_cons, (Hge H). simpl.
    destruct (ser_write t); simpl; rewrite ?app_nil_r, <- ?app_assoc; try done.
    destruct (relay threshold now rest). simpl. by rewrite <- !app_assoc.
Qed.

(** One warm-up call, an edge accepted at 100 s, a spurious wake, then an
    ACCEPT at 100.25 s: against a threshold of 0.5 s it is discarded, and
    the later ACCEPT at 100.75 s is measured from 100 s and written; against
    a threshold of 0.125 s it is written. *)
Lemma debounce_law_witness :
  relay_session (PFloat 0.5) 1
    ([Tick (Returns 1) (Returns 99%float) (Returns tt)] ++
     (edge_tick <$> [(1, 100%float); (0, 100.125%float)]) ++
     Tick (Returns 1) (Returns 100.25%float) (Returns tt) ::
     [Tick (Returns 1) (Returns 100.75%float) (Returns tt)]) =
    ([Wait; Wait; SerialWrite PULSE_BYTE; Wait; Wait; Wait; SerialWrite PULSE_BYTE; Wait],
     Waiting) /\
  relay_session (PFloat 0.125) 1
    ([Tick (Returns 1) (Returns 99%float) (Returns tt)] ++
     (edge_tick <$> [(1, 100%float); (0, 100.125%float)]) ++
     Tick (Returns 1) (Returns 100.25%float) (Returns tt) :: []) =
    ([Wait; Wait; SerialWrite PULSE_BYTE; Wait; Wait; SerialWrite PULSE_BYTE; Wait],
     Waiting).
Proof.
  split.
  - refine (eq_trans (proj1 (debounce_law 1 (PFloat 0.5)
      [Tick (Returns 1) (Returns 99%float) (Returns tt)]
      [(1, 100%float); (0, 100.125%float)]
      (Tick (Returns 1) (Returns 100.25%float) (Returns tt)) 100.25
      [Tick (Returns 1) (Returns 100.75%float) (Returns tt)]
      eq_refl eq_refl eq_refl eq_refl) eq_refl) _).
    reflexivity.
  - refine (eq_trans (proj1 (proj2 (debounce_law 1 (PFloat 0.125)
      [Tick (Returns 1) (Returns 99%float) (Returns tt)]
      [(1, 100%float); (0, 100.125%float)]
      (Tick (Returns 1) (Returns 100.25%float) (Returns tt)) 100.25 []
      eq_refl eq_refl eq_refl eq_refl)) eq_refl) _).
    reflexivity.
Defined.

(** ** The first edge and the sentinel *)

(** With a threshold of 10 s (as [--pulse-threshold 10] sets it) and
    [warmup = 3], four ACCEPT returns with the clock at 5 s on the fourth:
    the fourth is the first evaluated against the filter, [last_pulse] is
    still 0.0, and it is discarded; nothing is written. *)
Lemma first_pulse_discarded :
  relay_session (PFloat 10) 3
    [Tick (Returns 1) (Returns 1%float) (Returns tt);
     Tick (Returns 1) (Returns 2%float) (Returns tt);
     Tick (Returns 1) (Returns 3%float) (Returns tt);
     Tick (Returns 1) (Returns 5%float) (Returns tt)] =
    ([Wait; Wait; Wait; Wait; Wait], Waiting).
Proof. reflexivity. Qed.

(** C6, amended.  After [N] warm-up calls and any number of non-ACCEPT
    returns, the first ACCEPT is tested against the filter with [last_pulse]
    at its initial value 0.0: when [now - 0.0 < threshold] is false the
    marker byte is written once and [last_pulse] becomes [now]; when it is
    true the signal is discarded and [last_pulse] stays 0.0. *)
Theorem first_pulse_after_warm_up (N : nat) (threshold : pyval)
    (warm idle rest : list tick) (t : tick) (now : float) :
  length warm = N ->
  forallb came_back warm = true ->
  forallb spurious idle = true ->
  vsync_func t = Returns 1 ->
  perf_counter t = Returns now ->
  (py_float_lt (now - no_pulse)%float threshold = Returns false ->
     relay_session threshold (Z.of_nat N) (warm ++ idle ++ t :: rest) =
       ((replicate (N + length idle) Wait ++ [Wait; SerialWrite PULSE_BYTE],
         ser_write t) ;;
        relay threshold now rest)) /\
  (py_float_lt (now - no_pulse)%float threshold = Returns true ->
     relay_session threshold (Z.of_nat N) (warm ++ idle ++ t :: rest) =
       ((replicate (N + length idle) Wait ++ [Wait], Returns tt) ;;
        relay threshold no_pulse rest)).
Proof.
  intros <- Hw Hi Hv Hc.
  rewrite (relay_session_warm _ _ _ Hw).
  rewrite (relay_spurious _ _ _ _ Hi), relay_cons. simpl.
  split; intros Hlt.
  - rewrite (iteration_accepted _ _ _ _ Hv Hc Hlt). simpl.
    destruct (ser_write t); simpl;
      rewrite ?app_nil_r, replicate_add, <- ?app_assoc; try reflexivity.
    destruct (relay threshold now rest). simpl.
    by rewrite <- !app_assoc.
  - rewrite (iteration_debounced _ _ _ _ Hv Hc Hlt). simpl.
    destruct (relay threshold no_pulse rest). simpl.
    by rewrite replicate_add, <- !app_assoc.
Qed.

(** Warm-up of two, one spurious wake, then the first ACCEPT with the clock
    at 8 s against the default threshold. *)
Lemma first_pulse_after_warm_up_witness :
  relay_session default_pulse_threshold 2
    ([Tick (Returns 1) (Returns 5%float) (Returns tt);
      Tick (Returns 1) (Returns 6%float) (Returns tt)] ++
     [Tick (Returns 0) (Returns 7%float) (Returns tt)] ++
     Tick (Returns 1) (Returns 8%float) (Returns tt) :: []) =
    ([Wait; Wait; Wait; Wait; SerialWrite PULSE_BYTE; Wait], Waiting).
Proof.
  apply (proj1 (first_pulse_after_warm_up 2 default_pulse_threshold
    [Tick (Returns 1) (Returns 5%float) (Returns tt);
     Tick (Returns 1) (Returns 6%float) (Returns tt)]
    [Tick (Returns 0) (Returns 7%float) (Returns tt)] []
    (Tick (Returns 1) (Returns 8%float) (Returns tt)) 8
    eq_refl eq_refl eq_refl eq_refl eq_refl)).
  reflexivity.
Defined.

(** ** What goes over the serial line *)

Section TraceInvariant.
Variable P : event -> Prop.

Lemma Forall_bind {A B : Type} (m : proc A) (k : A -> proc B) :
  Forall P m.1 -> (forall a, Forall P (k a).1) -> Forall P (bind m k).1.
Proof.
  intros Hm Hk. destruct m as [tr [a|e|]]; simpl; try done.
  specialize (Hk a). destruct (k a) as [tr' r]. simpl in *.
  by apply Forall_app.
Qed.

Lemma Forall_try_except {A : Type} (body : proc A) (handler : exn -> option (proc A)) :
  Forall P body.1 ->
  (forall e h, handler e = Some h -> Forall P h.1) ->
  Forall P (try_except body handler).1.
Proof.
  intros Hb Hh. destruct body as [tr [a|e|]]; simpl; try done.
  destruct (handler e) as [h|] eqn:E; simpl; [|done].
  specialize (Hh e h E). destruct h as [tr' r]. simpl in *.
  by apply Forall_app.
Qed.

Lemma Forall_except {A : Type} (base : exn_class) (h : string -> proc A) :
  (forall exc, Forall P (h exc).1) ->
  forall e h', except base h e = Some h' -> Forall P h'.1.
Proof.
  intros Hh e h'. destruct e as [| |cls exc]; simpl; try discriminate.
  destruct (issubclass cls base); [|discriminate]. intros [= <-]. apply Hh.
Qed.

Lemma Forall_try_finally {A : Type} (body : proc A) (cleanup : proc unit) :
  Forall P body.1 -> Forall P cleanup.1 ->
  Forall P (try_finally body cleanup).1.
Proof.
  intros Hb Hc. destruct body as [tr [a|e|]], cleanup as [tr' c]; simpl in *;
    try done; by apply Forall_app.
Qed.

Lemma Forall_pure {A : Type} (r : result A) : Forall P (pure r).1.
Proof. constructor. Qed.

Lemma Forall_LOGGER_info (configured : level) (fmt : string) (args : list pyval) :
  (forall lvl f a, P (LogRecord lvl f a)) ->
  Forall P (LOGGER_info configured fmt args).1.
Proof.
  intros H. unfold LOGGER_info. destruct (_ <=? _); simpl; by repeat constructor.
Qed.
End TraceInvariant.

Lemma iteration_marker_only (threshold : pyval) (last_pulse : float) (t : tick) :
  Forall marker_only (calls (iteration threshold last_pulse t)).
Proof.
  unfold iteration.
  repeat (match goal with
          | |- context [match ?x with _ => _ end] => destruct x
          end); simpl;
    repeat constructor; intros data [=]; by subst.
Qed.

Lemma relay_marker_only (threshold : pyval) (last_pulse : float) (ts : list tick) :
  Forall marker_only (relay threshold last_pulse ts).1.
Proof.
  revert last_pulse. induction ts as [|t ts IH]; intros last_pulse.
  - simpl. repeat constructor. intros data [=].
  - rewrite relay_cons. apply Forall_bind; [apply iteration_marker_only|].
    intros _. apply IH.
Qed.

Lemma relay_session_marker_only (threshold : pyval) (warmup : Z) (ts : list tick) :
  Forall marker_only (relay_session threshold warmup ts).1.
Proof.
  apply Forall_bind; [|intros rest; apply relay_marker_only].
  eapply Forall_impl; [apply warm_up_only_waits|].
  intros e -> data [=].
Qed.

Lemma guarded_relay_marker_only (configured : level) (threshold : pyval)
    (warmup : Z) (ts : list tick) :
  Forall marker_only (guarded_relay configured threshold warmup ts).1.
Proof.
  apply Forall_bind; [|intros _; constructor].
  apply Forall_try_finally; [|repeat constructor; intros data [=]].
  apply Forall_try_except; [apply relay_session_marker_only|].
  intros e h. destruct e; try discriminate. intros [= <-].
  apply Forall_LOGGER_info. intros lvl f a data [=].
Qed.

Lemma startup_never_writes (args : arguments) (w : world) :
  Forall (fun e => forall data, e <> SerialWrite data) (startup args w).1.
Proof.
  unfold startup, merge_config, required_options, merged_baudrate,
    merged_pulse_threshold, merged_warmup, _open_serial, _create_vsync_waiter,
    parser_error, call.
  repeat first
    [ apply Forall_bind; [|intros ?]
    | apply Forall_try_except; [|apply Forall_except; intros exc]
    | apply Forall_pure
    | apply Forall_LOGGER_info; intros; discriminate
    | by repeat constructor ].
Qed.

Lemma relayed_writes (threshold : pyval) (last_pulse : float)
    (edges : list (Z * float)) :
  writes (relayed threshold last_pulse edges) =
    (fun _ => SerialWrite [xaa]) <$> accepted_edges threshold last_pulse edges.
Proof.
  revert last_pulse. induction edges as [|[status now] edges IH]; intros last_pulse.
  - reflexivity.
  - cbn [relayed accepted_edges].
    destruct ((status =? ACCEPT) && negb (below (now - last_pulse) threshold)).
    + rewrite fmap_cons. unfold writes in *. simpl. by rewrite IH.
    + unfold writes in *. simpl. by rewrite IH.
Qed.

Lemma relay_over_edges (threshold : pyval) (last_pulse : float)
    (edges : list (Z * float)) :
  comparable threshold = true ->
  relay threshold last_pulse (edge_tick <$> edges) =
    (relayed threshold last_pulse edges ++ [Wait], Waiting).
Proof.
  intros Hc. rewrite <- (app_nil_r (edge_tick <$> edges)).
  by rewrite (relay_edges _ _ _ _ Hc).
Qed.

Lemma relay_incomparable (threshold : pyval) (last_pulse : float) (ts : list tick) :
  comparable threshold = false -> writes (relay threshold last_pulse ts).1 = [].
Proof.
  intros Hc. revert last_pulse. induction ts as [|t ts IH]; intros last_pulse.
  - reflexivity.
  - rewrite relay_cons.
    assert (writes (calls (iteration threshold last_pulse t)) = []) as Hw.
    { unfold iteration. destruct (vsync_func t) as [status| |]; try done.
      destruct (negb (status =? 1)); [done|].
      destruct (perf_counter t) as [now| |]; try done.
      by destruct threshold. }
    specialize (IH (pulse (iteration threshold last_pulse t))).
    destruct (next (iteration threshold last_pulse t)); simpl; try done.
    destruct (relay threshold _ ts) as [tr r]. simpl in *.
    unfold writes in *. by rewrite List.filter_app, Hw, IH.
Qed.

(** C8 (serial wire protocol).  Whatever the arguments and the world, every
    write [main] issues writes the single marker byte 0xAA, and start-up
    writes nothing.  In a run where the calls come back, with a threshold
    that is a number (a float, an int or a bool, as the command line and
    the config file can give it), the loop does exactly what the design
    says: one wait for each edge, and one marker byte after the wait of
    each accepted, debounced edge, so the writes are one per such edge.
    With any other threshold the loop never writes. *)
Theorem only_marker_bytes :
  (forall args w data,
     In (SerialWrite data) (main args w).1 -> data = [xaa]) /\
  (forall args w data, ~ In (SerialWrite data) (startup args w).1) /\
  (forall threshold last_pulse edges,
     comparable threshold = true ->
     relay threshold last_pulse (edge_tick <$> edges) =
       (relayed threshold last_pulse edges ++ [Wait], Waiting) /\
     writes (relay threshold last_pulse (edge_tick <$> edges)).1 =
       (fun _ => SerialWrite [xaa]) <$> accepted_edges threshold last_pulse edges) /\
  (forall threshold last_pulse ts,
     comparable threshold = false ->
     writes (relay threshold last_pulse ts).1 = []).
Proof.
  split; [|split; [|split]].
  - intros args w data Hin.
    assert (Forall marker_only (main args w).1) as H.
    { apply Forall_bind.
      - eapply Forall_impl; [apply startup_never_writes|].
        intros e He data' ->. by destruct (He data').
      - intros s. apply guarded_relay_marker_only. }
    rewrite List.Forall_forall in H. by apply (H _ Hin).
  - intros args w data Hin.
    pose proof (startup_never_writes args w) as H.
    rewrite List.Forall_forall in H. by apply (H _ Hin data).
  - intros threshold last_pulse edges Hc.
    rewrite (relay_over_edges _ _ _ Hc). split; [done|]. simpl.
    unfold writes. rewrite List.filter_app. simpl. rewrite app_nil_r.
    apply relayed_writes.
  - apply relay_incomparable.
Qed.

(** An int threshold of 10 s from the config file: of three ACCEPT edges at
    100 s, 101 s and 111 s the second is debounced. *)
Lemma only_marker_bytes_witness :
  relay (PInt 10) no_pulse
    (edge_tick <$> [(1, 100%float); (1, 101%float); (1, 111%float)]) =
    ([Wait; SerialWrite [xaa]; Wait; Wait; SerialWrite [xaa]; Wait], Waiting).
Proof.
  apply (proj1 (proj2 (proj2 only_marker_bytes))
           (PInt 10) no_pulse [(1, 100%float); (1, 101%float); (1, 111%float)]).
  reflexivity.
Defined.

(** ** Leaving the relay loop *)

Lemma relay_never_returns (threshold : pyval) (last_pulse : float) (ts : list tick) :
  forall a, (relay threshold last_pulse ts).2 <> Returns a.
Proof.
  revert last_pulse. induction ts as [|t ts IH]; intros last_pulse a; simpl; [done|].
  destruct (next (iteration threshold last_pulse t)); simpl; try done.
  specialize (IH (pulse (iteration threshold last_pulse t)) a).
  by destruct (relay threshold (pulse (iteration threshold last_pulse t)) ts).
Qed.

Lemma relay_session_never_returns (threshold : pyval) (warmup : Z) (ts : list tick) :
  forall a, (relay_session threshold warmup ts).2 <> Returns a.
Proof.
  intros a. unfold relay_session.
  destruct (warm_up (Z.to_nat warmup) ts) as [tr [rest|e|]]; simpl; try done.
  pose proof (relay_never_returns threshold no_pulse rest a).
  by destruct (relay threshold no_pulse rest).
Qed.

Lemma guarded_relay_shutdown (configured : level) (threshold : pyval)
    (warmup : Z) (ts : list tick) :
  guarded_relay configured threshold warmup ts =
    shutdown configured (relay_session threshold warmup ts).
Proof.
  unfold guarded_relay, shutdown, exit_record, LOGGER_info.
  destruct (relay_session threshold warmup ts) as [tr [[]|e|]]; simpl.
  - by rewrite app_nil_r.
  - destruct e; simpl; rewrite ?app_nil_r; try reflexivity.
    destruct (levelno configured <=? 20); simpl;
      by rewrite ?app_nil_r, <- ?app_assoc.
  - reflexivity.
Qed.

(** With [--log-level error] and both required options on the command
    line, an interrupt during the first wait: the port is closed and the
    status is 0, and no log line is produced. *)
Lemma interrupt_without_log_line :
  main (Arguments (PurePath "vsync.config.json") (Some "COM5") (Some "vs.dll")
          None None None Error)
       (World Missing (Returns tt) (Returns tt) (Returns tt)
          [Tick (Raises KeyboardInterrupt) (Returns 0%float) (Returns tt)]) =
    ([SerialOpen (PStr "COM5") (PInt 921600); DllLoad (PurePath "vs.dll");
      SymbolLookup "wait_for_vsync"; Wait; SerialClose],
     Returns 0).
Proof. reflexivity. Qed.

(** C7, amended.  Once start-up has succeeded, [main] ends by the way the
    relay loop is left.  On an interrupt (in warm-up or in the loop, at the
    wait, the clock or the write) the port is closed and [main] returns 0,
    and the line "Exiting on user request" is logged at INFO level, so it is
    produced when the configured level is debug or info.  On any other
    exception the port is closed and the exception goes on.  The loop never
    ends by itself.  While it runs, the port stays open. *)
Theorem graceful_shutdown (args : arguments) (w : world) (pre : list event)
    (s : settings) :
  startup args w = (pre, Returns s) ->
  forall tr r,
    relay_session (pulse_threshold s) (warmup s) (ticks w) = (tr, r) ->
    match r with
    | Raises KeyboardInterrupt =>
        main args w =
          (pre ++ tr ++ exit_record (arg_log_level args) ++ [SerialClose], Returns 0) /\
        exit_status (main args w).2 = Some 0
    | Raises e => main args w = (pre ++ tr ++ [SerialClose], Raises e)
    | Waiting => main args w = (pre ++ tr, Waiting)
    | Returns _ => False
    end.
Proof.
  intros Hs tr r Hr. unfold main. rewrite Hs. simpl.
  rewrite guarded_relay_shutdown.
  pose proof (relay_session_never_returns (pulse_threshold s) (warmup s) (ticks w)) as Hn.
  rewrite Hr in *. simpl in Hn.
  destruct r as [a|e|]; simpl.
  - by apply (Hn a).
  - by destruct e.
  - reflexivity.
Qed.

(** The default log level, the config file of the first end-to-end
    scenario, one accepted edge and then Ctrl-C. *)
Lemma graceful_shutdown_witness :
  main (Arguments (PurePath "vsync.config.json") None None None None None Info)
       (World (Parsed {[ "port" := PStr "COM5"; "dll" := PStr "vs.dll" ]})
          (Returns tt) (Returns tt) (Returns tt)
          [Tick (Returns 1) (Returns 100%float) (Returns tt);
           Tick (Raises KeyboardInterrupt) (Returns 0%float) (Returns tt)]) =
    ([LogRecord Info "Opening serial port %s @ %d baud" [PStr "COM5"; PInt 921600];
      SerialOpen (PStr "COM5") (PInt 921600);
      LogRecord Info "Loading VSYNC waiter DLL from %s" [PPath (PurePath "vs.dll")];
      DllLoad (PurePath "vs.dll"); SymbolLookup "wait_for_vsync";
      LogRecord Info
        "Starting VSYNC relay (pulse_threshold=%s s, warmup=%s frames)"
        [default_pulse_threshold; PInt 0]] ++
     [Wait; SerialWrite PULSE_BYTE; Wait] ++
     exit_record Info ++ [SerialClose],
     Returns 0) /\
  exit_status
    (main (Arguments (PurePath "vsync.config.json") None None None None None Info)
       (World (Parsed {[ "port" := PStr "COM5"; "dll" := PStr "vs.dll" ]})
          (Returns tt) (Returns tt) (Returns tt)
          [Tick (Returns 1) (Returns 100%float) (Returns tt);
           Tick (Raises KeyboardInterrupt) (Returns 0%float) (Returns tt)])).2 = Some 0.
Proof.
  exact (graceful_shutdown
    (Arguments (PurePath "vsync.config.json") None None None None None Info)
    (World (Parsed {[ "port" := PStr "COM5"; "dll" := PStr "vs.dll" ]})
       (Returns tt) (Returns tt) (Returns tt)
       [Tick (Returns 1) (Returns 100%float) (Returns tt);
        Tick (Raises KeyboardInterrupt) (Returns 0%float) (Returns tt)])
    _ _ eq_refl
    [Wait; SerialWrite PULSE_BYTE; Wait] (Raises KeyboardInterrupt) eq_refl).
Defined.

(** ** Merging the command line and the config file *)

(** Against a JSON object, [key in config] and [config[key]] are one
    lookup. *)
Lemma resolve_dict (config : gmap string pyval) (key : string) (required : bool) :
  _resolve_option PNone (PDict config) key required =
    match config !! key with
    | Some v => Returns v
    | None =>
        if required then Raises (Exception ValueError (required_message key))
        else Returns PNone
    end.
Proof.
  unfold _resolve_option, py_contains, py_getitem, required_message.
  destruct (config !! key) as [v|] eqn:H.
  - rewrite bool_decide_eq_true_2 by eauto. reflexivity.
  - rewrite bool_decide_eq_false_2 by (intros [v Hv]; discriminate). reflexivity.
Qed.

Lemma resolve_optional (cli_value : pyval) (config : gmap string pyval) (key : string) :
  _resolve_option cli_value (PDict config) key false =
    Returns (resolved cli_value config key).
Proof.
  destruct cli_value; try reflexivity.
  rewrite resolve_dict. simpl. by destruct (config !! key).
Qed.

Lemma resolve_cli (cli_value : pyval) (config : pyval) (key : string)
    (required : bool) :
  cli_value <> PNone -> _resolve_option cli_value config key required = Returns cli_value.
Proof. by destruct cli_value. Qed.

Lemma resolve_file (config : gmap string pyval) (key : string) (required : bool)
    (v : pyval) :
  config !! key = Some v ->
  _resolve_option PNone (PDict config) key required = Returns v.
Proof. intros H. by rewrite resolve_dict, H. Qed.

Lemma resolve_missing (config : gmap string pyval) (key : string) :
  config !! key = None ->
  _resolve_option PNone (PDict config) key false = Returns PNone /\
  _resolve_option PNone (PDict config) key true =
    Raises (Exception ValueError ("Option '" +:+ key +:+
      "' is required; supply it on the command line or config file")).
Proof. intros H. by rewrite !resolve_dict, H. Qed.

Lemma merged_baudrate_eq (cli_value : pyval) (config : gmap string pyval) :
  merged_baudrate cli_value (PDict config) =
    ret (py_or (resolved cli_value config "baudrate") default_baudrate).
Proof. unfold merged_baudrate. by rewrite resolve_optional. Qed.

Lemma merged_pulse_threshold_eq (cli_value : pyval) (config : gmap string pyval) :
  merged_pulse_threshold cli_value (PDict config) =
    ret (py_or (resolved cli_value config "pulse_threshold") default_pulse_threshold).
Proof. unfold merged_pulse_threshold. by rewrite resolve_optional. Qed.

Lemma merged_warmup_eq (cli_value : pyval) (config : gmap string pyval) :
  merged_warmup cli_value (PDict config) =
    pure (py_int (py_or (resolved cli_value config "warmup") default_warmup)).
Proof.
  unfold merged_warmup. rewrite resolve_optional. simpl.
  by destruct (py_int _).
Qed.

(** [merge_config] is the required options followed by the three optional
    ones, of which only [int(...)] can fail. *)
Lemma merge_config_eq (args : arguments) (config : gmap string pyval) :
  merge_config args (PDict config) =
    (let* required := required_options args (PDict config) in
     let* warmup :=
       pure (py_int (py_or (resolved (of_option PInt (arg_warmup args)) config "warmup")
                       default_warmup)) in
     ret (Settings required.1 required.2
            (py_or (resolved (of_option PInt (arg_baudrate args)) config "baudrate")
               default_baudrate)
            (py_or (resolved (of_option PFloat (arg_pulse_threshold args)) config
                      "pulse_threshold")
               default_pulse_threshold)
            warmup)).
Proof.
  unfold merge_config.
  rewrite merged_baudrate_eq, merged_pulse_threshold_eq, merged_warmup_eq.
  destruct (required_options args (PDict config)) as [tr [req|e|]]; simpl; try reflexivity.
  by destruct (py_int _).
Qed.

Lemma merge_config_returns (args : arguments) (config : gmap string pyval)
    (tr : list event) (s : settings) :
  merge_config args (PDict config) = (tr, Returns s) ->
  baudrate s =
    py_or (resolved (of_option PInt (arg_baudrate args)) config "baudrate")
      default_baudrate /\
  pulse_threshold s =
    py_or (resolved (of_option PFloat (arg_pulse_threshold args)) config "pulse_threshold")
      default_pulse_threshold /\
  Returns (warmup s) =
    py_int (py_or (resolved (of_option PInt (arg_warmup args)) config "warmup")
              default_warmup).
Proof.
  rewrite merge_config_eq.
  destruct (required_options args (PDict config)) as [tr0 [req|e|]]; simpl; try discriminate.
  destruct (py_int _) as [n|e|]; simpl; try discriminate.
  by intros [= _ <-].
Qed.

(** [--baudrate 0 --pulse-threshold 0] on the command line, [9600] and
    [0.25] in the config file: both fields are supplied in both places, and
    the merged configuration holds neither the command-line values nor the
    file's, but the built-in defaults. *)
Lemma cli_zero_not_selected :
  merge_config
    (Arguments (PurePath "vsync.config.json") (Some "COM5") (Some "vs.dll")
       (Some 0) (Some 0%float) None Info)
    (PDict {[ "baudrate" := PInt 9600; "pulse_threshold" := PFloat 0.25 ]}) =
  ([], Returns (Settings (PStr "COM5") (PurePath "vs.dll") (PInt 921600)
                  (PFloat 0x1.0624dd2f1a9fcp-11) 0)).
Proof. reflexivity. Qed.

(** C3, amended.  [_resolve_option] returns the command-line value when one
    is given (not [None]); otherwise the file's value when the key is in the
    file; otherwise [None], or, for a required option, it fails.  The merged
    [baudrate], [pulse_threshold] and [warmup] are that value when it is
    truthy and the built-in default (921600, 0.0005, 0) when it is not; so a
    truthy command-line value is the merged value whatever the file says. *)
Theorem precedence_law (cli_value : pyval) (config : gmap string pyval)
    (key : string) (required : bool) :
  (cli_value <> PNone ->
     _resolve_option cli_value (PDict config) key required = Returns cli_value) /\
  (forall v, config !! key = Some v ->
     _resolve_option PNone (PDict config) key required = Returns v) /\
  (config !! key = None ->
     _resolve_option PNone (PDict config) key false = Returns PNone /\
     _resolve_option PNone (PDict config) key true =
       Raises (Exception ValueError ("Option '" +:+ key +:+
         "' is required; supply it on the command line or config file"))) /\
  merged_baudrate cli_value (PDict config) =
    ret (if truthy (resolved cli_value config "baudrate")
         then resolved cli_value config "baudrate" else PInt 921600) /\
  merged_pulse_threshold cli_value (PDict config) =
    ret (if truthy (resolved cli_value config "pulse_threshold")
         then resolved cli_value config "pulse_threshold"
         else PFloat 0x1.0624dd2f1a9fcp-11) /\
  merged_warmup cli_value (PDict config) =
    pure (py_int (if truthy (resolved cli_value config "warmup")
                  then resolved cli_value config "warmup" else PInt 0)) /\
  (truthy cli_value = true ->
     merged_baudrate cli_value (PDict config) = ret cli_value /\
     merged_pulse_threshold cli_value (PDict config) = ret cli_value /\
     merged_warmup cli_value (PDict config) = pure (py_int cli_value)).
Proof.
  assert (truthy cli_value = true ->
          forall k d, py_or (resolved cli_value config k) d = cli_value) as Ht.
  { intros H k d. unfold py_or.
    destruct cli_value; try discriminate; simpl resolved; by rewrite H. }
  split; [apply resolve_cli|].
  split; [intros v; apply resolve_file|].
  split; [apply resolve_missing|].
  split; [apply merged_baudrate_eq|].
  split; [apply merged_pulse_threshold_eq|].
  split; [apply merged_warmup_eq|].
  intros H.
  by rewrite merged_baudrate_eq, merged_pulse_threshold_eq, merged_warmup_eq, !(Ht H).
Qed.

(** [--baudrate 115200] against a file that says 9600. *)
Lemma precedence_law_witness :
  _resolve_option (PInt 115200) (PDict {[ "baudrate" := PInt 9600 ]}) "baudrate" false =
    Returns (PInt 115200) /\
  merged_baudrate (PInt 115200) (PDict {[ "baudrate" := PInt 9600 ]}) = ret (PInt 115200).
Proof.
  pose proof (precedence_law (PInt 115200) {[ "baudrate" := PInt 9600 ]}
                "baudrate" false) as (Hcli & _ & _ & _ & _ & _ & Htruthy).
  split.
  - apply Hcli. discriminate.
  - apply Htruthy. reflexivity.
Defined.

(** C5.  A config file that sets [baudrate], [pulse_threshold] or [warmup]
    to zero, or to any other falsy value, with no command-line override:
    the merged value is the built-in default (921600, 0.0005, 0), not the
    value the file gives. *)
Theorem falsy_config_value_falls_through (config : gmap string pyval) (v : pyval) :
  truthy v = false ->
  (config !! "baudrate" = Some v ->
     merged_baudrate PNone (PDict config) = ret (PInt 921600)) /\
  (config !! "pulse_threshold" = Some v ->
     merged_pulse_threshold PNone (PDict config) = ret (PFloat 0x1.0624dd2f1a9fcp-11)) /\
  (config !! "warmup" = Some v ->
     merged_warmup PNone (PDict config) = ret 0) /\
  (forall args tr s,
     merge_config args (PDict config) = (tr, Returns s) ->
     (arg_baudrate args = None -> config !! "baudrate" = Some v ->
        baudrate s = PInt 921600) /\
     (arg_pulse_threshold args = None -> config !! "pulse_threshold" = Some v ->
        pulse_threshold s = PFloat 0x1.0624dd2f1a9fcp-11) /\
     (arg_warmup args = None -> config !! "warmup" = Some v ->
        warmup s = 0)).
Proof.
  intros Hv.
  assert (forall key, config !! key = Some v ->
            forall d, py_or (resolved PNone config key) d = d) as Hd.
  { intros key H d. simpl. rewrite H. simpl. unfold py_or. by rewrite Hv. }
  split; [|split; [|split]].
  - intros H. by rewrite merged_baudrate_eq, (Hd _ H).
  - intros H. by rewrite merged_pulse_threshold_eq, (Hd _ H).
  - intros H. by rewrite merged_warmup_eq, (Hd _ H).
  - intros args tr s Hm.
    apply merge_config_returns in Hm as (Hb & Hp & Hw).
    split; [|split]; intros Ha H.
    + by rewrite Hb, Ha, (Hd _ H).
    + by rewrite Hp, Ha, (Hd _ H).
    + rewrite Ha in Hw. simpl of_option in Hw. rewrite (Hd _ H) in Hw.
      simpl in Hw. congruence.
Qed.

(** A config file with [baudrate], [pulse_threshold] and [warmup] all 0. *)
Lemma falsy_config_value_falls_through_witness :
  merged_baudrate PNone
    (PDict {[ "baudrate" := PInt 0; "pulse_threshold" := PInt 0; "warmup" := PInt 0 ]}) =
    ret (PInt 921600) /\
  merged_pulse_threshold PNone
    (PDict {[ "baudrate" := PInt 0; "pulse_threshold" := PInt 0; "warmup" := PInt 0 ]}) =
    ret (PFloat 0x1.0624dd2f1a9fcp-11) /\
  merged_warmup PNone
    (PDict {[ "baudrate" := PInt 0; "pulse_threshold" := PInt 0; "warmup" := PInt 0 ]}) =
    ret 0.
Proof.
  pose proof (falsy_config_value_falls_through
    {[ "baudrate" := PInt 0; "pulse_threshold" := PInt 0; "warmup" := PInt 0 ]}
    (PInt 0) eq_refl) as (Hb & Hp & Hw & _).
  split; [|split]; [apply Hb | apply Hp | apply Hw]; reflexivity.
Defined.

(** ** Required options *)

Lemma resolve_supplied (cli : option string) (config : pyval) (key : string) :
  supplied cli config key = true ->
  exists v, _resolve_option (of_option PStr cli) config key true = Returns v.
Proof.
  unfold supplied. destruct cli as [s|]; simpl of_option; [by eexists|].
  destruct config as [| | | | | |d|]; try discriminate.
  rewrite resolve_dict. intros [v ->]%bool_decide_eq_true. by eexists.
Qed.

Lemma resolve_lacks (cli : option string) (config : pyval) (key : string) :
  lacks cli config key = true ->
  _resolve_option (of_option PStr cli) config key true =
    Raises (Exception ValueError (required_message key)).
Proof.
  unfold lacks, _resolve_option. destruct cli as [s|]; simpl of_option; [discriminate|].
  by destruct (py_contains config key) as [[]|e|].
Qed.

Lemma required_options_missing (args : arguments) (config : pyval) (key : string) :
  first_missing args config = Some key ->
  required_options args config =
    ([ParserError (required_message key)], Raises (SystemExit (ExitCode 2))).
Proof.
  unfold first_missing, required_options.
  destruct (lacks (arg_port args) config "port") eqn:Hp.
  - intros [= <-]. by rewrite (resolve_lacks _ _ _ Hp).
  - destruct (supplied (arg_port args) config "port") eqn:Hs; [|discriminate].
    destruct (lacks (arg_dll args) config "dll") eqn:Hd; [|discriminate].
    intros [= <-]. apply resolve_supplied in Hs as [v ->].
    by rewrite (resolve_lacks _ _ _ Hd).
Qed.

(** No [--port], and a config file that holds the JSON value [null]:
    neither the command line nor the file supplies [port], and [main] ends
    in the [TypeError] of ["port" in None], which names no option; there is
    no usage error. *)
Lemma null_config_is_no_usage_error :
  arg_port (Arguments (PurePath "vsync.config.json") None None None None None Info) =
    None /\
  _load_config (PurePath "vsync.config.json") (Present (Returns PNone)) =
    Returns PNone /\
  exists msg,
    main (Arguments (PurePath "vsync.config.json") None None None None None Info)
         (World (Present (Returns PNone)) (Returns tt) (Returns tt) (Returns tt) []) =
      ([], Raises (Exception TypeError msg)).
Proof. repeat split. eexists. vm_compute. reflexivity. Qed.

(** C4, amended.  When the config file is absent, or holds a value in
    which [key in config] can be asked (a JSON object, array or string),
    and [port] is neither on the command line nor in that value, or [port]
    is supplied and [dll] is in neither, [main] ends in the usage error
    that names the missing option ([port] first), with exit status 2; the
    error is the only thing it does: no serial port is opened and no
    library is loaded. *)
Theorem missing_required_option (args : arguments) (w : world)
    (config : pyval) (key : string) :
  _load_config (arg_config args) (file w) = Returns config ->
  first_missing args config = Some key ->
  main args w =
    ([ParserError ("Option '" +:+ key +:+
                   "' is required; supply it on the command line or config file")],
     Raises (SystemExit (ExitCode 2))) /\
  exit_status (main args w).2 = Some 2 /\
  (forall port baudrate, ~ In (SerialOpen port baudrate) (main args w).1) /\
  (forall path, ~ In (DllLoad path) (main args w).1).
Proof.
  intros Hc Hm.
  assert (main args w =
            ([ParserError (required_message key)],
             Raises (SystemExit (ExitCode 2)))) as E.
  { unfold main, startup. rewrite Hc. simpl.
    unfold merge_config. by rewrite (required_options_missing _ _ _ Hm). }
  rewrite E. simpl. repeat split; try done.
  - intros port baudrate [H|[]]. discriminate.
  - intros path [H|[]]. discriminate.
Qed.

(** No config file and no [--port] (the third end-to-end scenario); a
    config file that gives the port but not the library; and a config file
    that holds an array, with [--port] on the command line. *)
Lemma missing_required_option_witness :
  main (Arguments (PurePath "vsync.config.json") None None None None None Info)
       (World Missing (Returns tt) (Returns tt) (Returns tt) []) =
    ([ParserError "Option 'port' is required; supply it on the command line or config file"],
     Raises (SystemExit (ExitCode 2))) /\
  main (Arguments (PurePath "vsync.config.json") None None None None None Info)
       (World (Parsed {[ "port" := PStr "COM5" ]})
          (Returns tt) (Returns tt) (Returns tt) []) =
    ([ParserError "Option 'dll' is required; supply it on the command line or config file"],
     Raises (SystemExit (ExitCode 2))) /\
  main (Arguments (PurePath "vsync.config.json") (Some "COM5") None None None None Info)
       (World (Present (Returns (PList [PStr "port"; PInt 5])))
          (Returns tt) (Returns tt) (Returns tt) []) =
    ([ParserError "Option 'dll' is required; supply it on the command line or config file"],
     Raises (SystemExit (ExitCode 2))).
Proof.
  split; [|split].
  - apply (missing_required_option
             (Arguments (PurePath "vsync.config.json") None None None None None Info)
             (World Missing (Returns tt) (Returns tt) (Returns tt) [])
             (PDict ∅) "port"); vm_compute; reflexivity.
  - apply (missing_required_option
             (Arguments (PurePath "vsync.config.json") None None None None None Info)
             (World (Parsed {[ "port" := PStr "COM5" ]})
                (Returns tt) (Returns tt) (Returns tt) [])
             (PDict {[ "port" := PStr "COM5" ]}) "dll"); vm_compute; reflexivity.
  - apply (missing_required_option
             (Arguments (PurePath "vsync.config.json") (Some "COM5") None None None None
                Info)
             (World (Present (Returns (PList [PStr "port"; PInt 5])))
                (Returns tt) (Returns tt) (Returns tt) [])
             (PList [PStr "port"; PInt 5]) "dll"); vm_compute; reflexivity.
Defined.

(** C10.  There are config files in which a required key is present and
    bound to null: [_resolve_option] with [required=True] returns that null
    instead of raising, and [main] does not end in the usage error.  With
    ["port": null] start-up goes through with [port = None]; with
    ["dll": null] it dies of the [TypeError] that [Path(None)] raises. *)
Theorem null_required_value :
  (exists config args w,
     config !! "port" = Some PNone /\
     arg_port args = None /\
     file w = Parsed config /\
     _resolve_option (of_option PStr (arg_port args)) (PDict config) "port" true =
       Returns PNone /\
     (startup args w).2 =
       Returns (Settings PNone (PurePath "vs.dll") (PInt 921600)
                  (PFloat 0x1.0624dd2f1a9fcp-11) 0) /\
     (forall message, ~ In (ParserError message) (main args w).1)) /\
  (exists config args w,
     config !! "dll" = Some PNone /\
     arg_dll args = None /\
     file w = Parsed config /\
     _resolve_option (of_option PStr (arg_dll args)) (PDict config) "dll" true =
       Returns PNone /\
     main args w = ([], Raises (Exception TypeError "expected str, bytes or os.PathLike object"))).
Proof.
  split.
  - exists {[ "port" := PNone; "dll" := PStr "vs.dll" ]},
      (Arguments (PurePath "vsync.config.json") None None None None None Info),
      (World (Parsed {[ "port" := PNone; "dll" := PStr "vs.dll" ]})
         (Returns tt) (Returns tt) (Returns tt) []).
    repeat (split; [vm_compute; reflexivity|]).
    intros message Hin. vm_compute in Hin.
    repeat (destruct Hin as [Hin|Hin]; [discriminate|]). done.
  - exists {[ "port" := PStr "COM5"; "dll" := PNone ]},
      (Arguments (PurePath "vsync.config.json") None None None None None Info),
      (World (Parsed {[ "port" := PStr "COM5"; "dll" := PNone ]})
         (Returns tt) (Returns tt) (Returns tt) []).
    repeat (split; [vm_compute; reflexivity|]). vm_compute. reflexivity.
Qed.

(** ** Failing to open a resource *)

(** Opening the serial port: a [SerialException] becomes a [SystemExit]
    whose text names the port and carries the cause; the port is tried
    once. *)
Lemma serial_failure_named (port baudrate : pyval) (exc : string) :
  _open_serial port baudrate (Raises (Exception SerialException exc)) =
    ([SerialOpen port baudrate],
     Raises (SystemExit (ExitMessage
       [Lit "Failed to open serial port '"; Str port; Lit "': "; Lit exc]))).
Proof. reflexivity. Qed.

(** Loading the library: whatever [ctypes.CDLL] or the symbol lookup raises
    leaves [_create_vsync_waiter] as it is; the path is not added to it. *)
Lemma dll_failure_propagates (dll_path : path) (e : exn) (symbol : result unit) :
  _create_vsync_waiter dll_path (Raises e) symbol = ([DllLoad dll_path], Raises e) /\
  _create_vsync_waiter dll_path (Returns tt) (Raises e) =
    ([DllLoad dll_path; SymbolLookup "wait_for_vsync"], Raises e).
Proof. split; reflexivity. Qed.

(** C9, at a failing input.  A DLL built for the other word size:
    [ctypes.CDLL] raises [OSError] with the operating system's text, which
    does not name the file.  [main] ends with that exception unchanged;
    with [--log-level warning] nothing it produces names the library path.
    (The serial port, already open, is not closed either.) *)
Lemma dll_failure_unnamed :
  main (Arguments (PurePath "vsync.config.json") (Some "COM5") (Some "VSYNCWaiter.dll")
          None None None Warning)
       (World Missing (Returns tt)
          (Raises (Exception OSError "[WinError 193] %1 is not a valid Win32 application"))
          (Returns tt) []) =
    ([SerialOpen (PStr "COM5") (PInt 921600); DllLoad (PurePath "VSYNCWaiter.dll")],
     Raises (Exception OSError "[WinError 193] %1 is not a valid Win32 application")).
Proof. vm_compute. reflexivity. Qed.

(** * Further properties of start-up, of the relay loop and of shutdown *)

(** ** Start-up, step by step *)

Lemma LOGGER_info_returns (configured : level) (fmt : string) (args : list pyval) :
  LOGGER_info configured fmt args = ((LOGGER_info configured fmt args).1, Returns tt).
Proof. unfold LOGGER_info. by destruct (_ <=? _). Qed.

Lemma merge_config_silent (args : arguments) (config : pyval)
    (tr : list event) (s : settings) :
  merge_config args config = (tr, Returns s) -> tr = [].
Proof.
  unfold merge_config, required_options, merged_baudrate, merged_pulse_threshold,
    merged_warmup, except.
  repeat first
    [ progress simpl
    | discriminate
    | match goal with
      | |- context [_resolve_option ?c config ?k ?r] =>
          destruct (_resolve_option c config k r) as [?|[| |? ?]|]
      | |- context [Path ?d] => destruct (Path d) as [?|[| |? ?]|]
      | |- context [py_int ?v] => destruct (py_int v) as [?|[| |? ?]|]
      | |- context [issubclass ?c ValueError] => destruct (issubclass c ValueError)
      end ].
  by intros [= <- _].
Qed.

(** Start-up once the configuration is merged: the three devices' calls,
    each behind its log line. *)
Lemma startup_after_merge (args : arguments) (w : world)
    (config : pyval) (s : settings) :
  _load_config (arg_config args) (file w) = Returns config ->
  merge_config args config = ([], Returns s) ->
  startup args w =
    ((opening_record (arg_log_level args) s, Returns tt) ;;
     _open_serial (port s) (baudrate s) (device w) ;;
     (loading_record (arg_log_level args) s, Returns tt) ;;
     _create_vsync_waiter (dll_path s) (cdll w) (symbol w) ;;
     (starting_record (arg_log_level args) s, Returns tt) ;;
     ret s).
Proof.
  intros Hc Hm.
  unfold startup, opening_record, loading_record, starting_record, LOGGER_info.
  rewrite Hc. simpl. rewrite Hm. simpl.
  destruct (levelno (arg_log_level args) <=? 20); simpl;
    destruct (_open_serial (port s) (baudrate s) (device w)) as [tr1 [[]|e|]];
    simpl; try reflexivity;
    destruct (_create_vsync_waiter (dll_path s) (cdll w) (symbol w)) as [tr2 [[]|e|]];
    reflexivity.
Qed.

(** ** The config file cannot be loaded *)

(** X1.  A config file that is there but cannot be opened or parsed ends
    [main] at once, whatever the command line gives: an [OSError] or a
    [JSONDecodeError] becomes the exit message that names the path and the
    cause, with status 1; an error of any other class goes through as it
    is.  Nothing is logged, opened or loaded. *)
Theorem config_load_failure (args : arguments) (w : world)
    (cls : exn_class) (exc : string) :
  file w = Present (Raises (Exception cls exc)) ->
  (issubclass cls OSError || issubclass cls JSONDecodeError = true ->
     main args w = ([], Raises (config_failure (arg_config args) exc)) /\
     exit_status (main args w).2 = Some 1) /\
  (issubclass cls OSError || issubclass cls JSONDecodeError = false ->
     main args w = ([], Raises (Exception cls exc))).
Proof.
  intros Hf. unfold main, startup, _load_config. rewrite Hf.
  by split; intros ->.
Qed.

(** A file with a syntax error, with every option on the command line; and
    a file that is not UTF-8 ([UnicodeDecodeError], a [ValueError]). *)
Lemma config_load_failure_witness :
  main (Arguments (PurePath "vsync.config.json") (Some "COM5") (Some "vs.dll")
          (Some 115200) None None Info)
       (World (Present (Raises (Exception JSONDecodeError
                 "Expecting value: line 1 column 1 (char 0)")))
          (Returns tt) (Returns tt) (Returns tt) []) =
    ([], Raises (config_failure (PurePath "vsync.config.json")
                   "Expecting value: line 1 column 1 (char 0)")) /\
  main (Arguments (PurePath "vsync.config.json") (Some "COM5") (Some "vs.dll")
          (Some 115200) None None Info)
       (World (Present (Raises (Exception ValueError
                 "'utf-8' codec can't decode byte 0xff in position 0")))
          (Returns tt) (Returns tt) (Returns tt) []) =
    ([], Raises (Exception ValueError
                   "'utf-8' codec can't decode byte 0xff in position 0")).
Proof.
  split.
  - apply (config_load_failure
      (Arguments (PurePath "vsync.config.json") (Some "COM5") (Some "vs.dll")
         (Some 115200) None None Info)
      (World (Present (Raises (Exception JSONDecodeError
                "Expecting value: line 1 column 1 (char 0)")))
         (Returns tt) (Returns tt) (Returns tt) [])
      JSONDecodeError "Expecting value: line 1 column 1 (char 0)" eq_refl).
    reflexivity.
  - apply (config_load_failure
      (Arguments (PurePath "vsync.config.json") (Some "COM5") (Some "vs.dll")
         (Some 115200) None None Info)
      (World (Present (Raises (Exception ValueError
                "'utf-8' codec can't decode byte 0xff in position 0")))
         (Returns tt) (Returns tt) (Returns tt) [])
      ValueError "'utf-8' codec can't decode byte 0xff in position 0" eq_refl).
    reflexivity.
Defined.

(** ** The serial port cannot be opened *)

(** X2.  When opening the serial port raises [SerialException], [main] ends
    with the exit message that names the port and carries the cause, with
    status 1, right after the attempt: the library is not loaded, the wait
    primitive is not called, and the port is not closed.  Any other
    exception from the attempt ends [main] the same way but unchanged. *)
Theorem serial_open_failure (args : arguments) (w : world)
    (config : pyval) (s : settings) (e : exn) :
  _load_config (arg_config args) (file w) = Returns config ->
  merge_config args config = ([], Returns s) ->
  device w = Raises e ->
  (forall exc, e = Exception SerialException exc ->
     main args w =
       (opening_record (arg_log_level args) s ++ [SerialOpen (port s) (baudrate s)],
        Raises (serial_failure (port s) exc)) /\
     exit_status (main args w).2 = Some 1) /\
  ((forall exc, e <> Exception SerialException exc) ->
     main args w =
       (opening_record (arg_log_level args) s ++ [SerialOpen (port s) (baudrate s)],
        Raises e)).
Proof.
  intros Hc Hm Hd. unfold main. rewrite (startup_after_merge _ _ _ _ Hc Hm).
  unfold _open_serial. rewrite Hd. split.
  - intros exc ->. by simpl.
  - intros Hne. destruct e as [| |cls exc]; simpl; try reflexivity.
    destruct cls; simpl; try reflexivity. by destruct (Hne exc).
Qed.

(** The fourth end-to-end scenario: the port name is fine and the device is
    not there. *)
Lemma serial_open_failure_witness :
  main (Arguments (PurePath "vsync.config.json") (Some "COM5") (Some "vs.dll")
          None None None Info)
       (World Missing
          (Raises (Exception SerialException
             "could not open port 'COM5': FileNotFoundError"))
          (Returns tt) (Returns tt) []) =
    ([LogRecord Info "Opening serial port %s @ %d baud" [PStr "COM5"; PInt 921600];
      SerialOpen (PStr "COM5") (PInt 921600)],
     Raises (serial_failure (PStr "COM5")
               "could not open port 'COM5': FileNotFoundError")).
Proof.
  apply (proj1 (serial_open_failure
    (Arguments (PurePath "vsync.config.json") (Some "COM5") (Some "vs.dll")
       None None None Info)
    (World Missing
       (Raises (Exception SerialException
          "could not open port 'COM5': FileNotFoundError"))
       (Returns tt) (Returns tt) [])
    (PDict ∅)
    (Settings (PStr "COM5") (PurePath "vs.dll") (PInt 921600)
       default_pulse_threshold 0)
    _ eq_refl eq_refl eq_refl)
    "could not open port 'COM5': FileNotFoundError" eq_refl).
Defined.

(** ** The library cannot be loaded *)

(** X3.  When [ctypes.CDLL] raises, or the lookup of [wait_for_vsync] does,
    [main] ends with that exception as it is.  The serial port was opened
    before and is not closed: the trace has no [ser.close()]; and the wait
    primitive is never called. *)
Theorem library_load_failure (args : arguments) (w : world)
    (config : pyval) (s : settings) (e : exn) :
  _load_config (arg_config args) (file w) = Returns config ->
  merge_config args config = ([], Returns s) ->
  device w = Returns tt ->
  (cdll w = Raises e ->
     main args w =
       (opening_record (arg_log_level args) s ++ [SerialOpen (port s) (baudrate s)] ++
        loading_record (arg_log_level args) s ++ [DllLoad (dll_path s)],
        Raises e)) /\
  (cdll w = Returns tt -> symbol w = Raises e ->
     main args w =
       (opening_record (arg_log_level args) s ++ [SerialOpen (port s) (baudrate s)] ++
        loading_record (arg_log_level args) s ++
        [DllLoad (dll_path s); SymbolLookup "wait_for_vsync"],
        Raises e)) /\
  ((cdll w = Raises e \/ (cdll w = Returns tt /\ symbol w = Raises e)) ->
     ~ In SerialClose (main args w).1 /\ ~ In Wait (main args w).1).
Proof.
  intros Hc Hm Hd.
  assert (forall l s', ~ In SerialClose (opening_record l s') /\
                       ~ In Wait (opening_record l s') /\
                       ~ In SerialClose (loading_record l s') /\
                       ~ In Wait (loading_record l s')) as Hlog.
  { intros l s'. unfold opening_record, loading_record, LOGGER_info.
    destruct (levelno l <=? levelno Info); simpl; intuition (auto; try discriminate). }
  assert (cdll w = Raises e ->
     main args w =
       (opening_record (arg_log_level args) s ++ [SerialOpen (port s) (baudrate s)] ++
        loading_record (arg_log_level args) s ++ [DllLoad (dll_path s)],
        Raises e)) as H1.
  { intros Hl. unfold main. rewrite (startup_after_merge _ _ _ _ Hc Hm).
    unfold _open_serial, _create_vsync_waiter. rewrite Hd, Hl. simpl.
    by rewrite <- ?app_assoc. }
  assert (cdll w = Returns tt -> symbol w = Raises e ->
     main args w =
       (opening_record (arg_log_level args) s ++ [SerialOpen (port s) (baudrate s)] ++
        loading_record (arg_log_level args) s ++
        [DllLoad (dll_path s); SymbolLookup "wait_for_vsync"],
        Raises e)) as H2.
  { intros Hl Hy. unfold main. rewrite (startup_after_merge _ _ _ _ Hc Hm).
    unfold _open_serial, _create_vsync_waiter. rewrite Hd, Hl, Hy. simpl.
    by rewrite <- ?app_assoc. }
  split; [exact H1|]. split; [exact H2|].
  destruct (Hlog (arg_log_level args) s) as (Ho1 & Ho2 & Hl1 & Hl2).
  intros [Hl|[Hl Hy]]; [rewrite (H1 Hl)|rewrite (H2 Hl Hy)]; simpl;
    repeat (progress (rewrite ?in_app_iff; simpl)); intuition (auto; try discriminate).
Qed.

(** A library of the other word size, and a library without the symbol. *)
Lemma library_load_failure_witness :
  main (Arguments (PurePath "vsync.config.json") (Some "COM5") (Some "vs.dll")
          None None None Info)
       (World Missing (Returns tt)
          (Raises (Exception OSError
             "[WinError 193] %1 is not a valid Win32 application"))
          (Returns tt) []) =
    ([LogRecord Info "Opening serial port %s @ %d baud" [PStr "COM5"; PInt 921600];
      SerialOpen (PStr "COM5") (PInt 921600);
      LogRecord Info "Loading VSYNC waiter DLL from %s" [PPath (PurePath "vs.dll")];
      DllLoad (PurePath "vs.dll")],
     Raises (Exception OSError
               "[WinError 193] %1 is not a valid Win32 application")) /\
  main (Arguments (PurePath "vsync.config.json") (Some "COM5") (Some "vs.dll")
          None None None Info)
       (World Missing (Returns tt) (Returns tt)
          (Raises (Exception AttributeError "function 'wait_for_vsync' not found"))
          []) =
    ([LogRecord Info "Opening serial port %s @ %d baud" [PStr "COM5"; PInt 921600];
      SerialOpen (PStr "COM5") (PInt 921600);
      LogRecord Info "Loading VSYNC waiter DLL from %s" [PPath (PurePath "vs.dll")];
      DllLoad (PurePath "vs.dll"); SymbolLookup "wait_for_vsync"],
     Raises (Exception AttributeError "function 'wait_for_vsync' not found")).
Proof.
  split.
  - apply (proj1 (library_load_failure
      (Arguments (PurePath "vsync.config.json") (Some "COM5") (Some "vs.dll")
         None None None Info)
      (World Missing (Returns tt)
         (Raises (Exception OSError
            "[WinError 193] %1 is not a valid Win32 application"))
         (Returns tt) [])
      (PDict ∅)
      (Settings (PStr "COM5") (PurePath "vs.dll") (PInt 921600)
         default_pulse_threshold 0)
      _ eq_refl eq_refl eq_refl) eq_refl).
  - apply (proj1 (proj2 (library_load_failure
      (Arguments (PurePath "vsync.config.json") (Some "COM5") (Some "vs.dll")
         None None None Info)
      (World Missing (Returns tt) (Returns tt)
         (Raises (Exception AttributeError "function 'wait_for_vsync' not found"))
         [])
      (PDict ∅)
      (Settings (PStr "COM5") (PurePath "vs.dll") (PInt 921600)
         default_pulse_threshold 0)
      _ eq_refl eq_refl eq_refl)) eq_refl eq_refl).
Defined.

(** ** The order of the calls *)

(** Start-up issues no wait, no write and no close. *)
Lemma startup_no_relay_calls (args : arguments) (w : world) :
  Forall (fun e => e <> Wait /\ e <> SerialClose /\ forall data, e <> SerialWrite data)
    (startup args w).1.
Proof.
  unfold startup, merge_config, required_options, merged_baudrate,
    merged_pulse_threshold, merged_warmup, _open_serial, _create_vsync_waiter,
    parser_error, call.
  repeat first
    [ apply Forall_bind; [|intros ?]
    | apply Forall_try_except; [|apply Forall_except; intros exc]
    | apply Forall_pure
    | apply Forall_LOGGER_info; intros; repeat split; intros; discriminate
    | by repeat constructor ].
Qed.

Lemma iteration_calls (threshold : pyval) (last_pulse : float) (t : tick) :
  Forall (fun e => e = Wait \/ e = SerialWrite PULSE_BYTE)
    (calls (iteration threshold last_pulse t)).
Proof.
  unfold iteration.
  repeat (match goal with
          | |- context [match ?x with _ => _ end] => destruct x
          end); simpl; repeat (apply Forall_cons || apply Forall_nil); auto.
Qed.

Lemma relay_calls (threshold : pyval) (last_pulse : float) (ts : list tick) :
  Forall (fun e => e = Wait \/ e = SerialWrite PULSE_BYTE)
    (relay threshold last_pulse ts).1.
Proof.
  revert last_pulse. induction ts as [|t ts IH]; intros last_pulse.
  - simpl. repeat (apply Forall_cons || apply Forall_nil); auto.
  - rewrite relay_cons. apply Forall_bind; [apply iteration_calls|].
    intros _. apply IH.
Qed.

(** The relay phase calls the wait primitive and writes the marker byte,
    and does nothing else. *)
Lemma relay_session_calls (threshold : pyval) (warmup : Z) (ts : list tick) :
  Forall (fun e => e = Wait \/ e = SerialWrite PULSE_BYTE)
    (relay_session threshold warmup ts).1.
Proof.
  apply Forall_bind; [|intros rest; apply relay_calls].
  eapply Forall_impl; [apply warm_up_only_waits|]. simpl. auto.
Qed.

(** What start-up has done when it returns. *)
Lemma startup_returns (args : arguments) (w : world) (pre : list event) (s : settings) :
  startup args w = (pre, Returns s) ->
  exists config,
    _load_config (arg_config args) (file w) = Returns config /\
    merge_config args config = ([], Returns s) /\
    device w = Returns tt /\ cdll w = Returns tt /\ symbol w = Returns tt /\
    pre = opening_record (arg_log_level args) s ++ [SerialOpen (port s) (baudrate s)] ++
          loading_record (arg_log_level args) s ++
          [DllLoad (dll_path s); SymbolLookup "wait_for_vsync"] ++
          starting_record (arg_log_level args) s.
Proof.
  intros H.
  destruct (_load_config (arg_config args) (file w)) as [config|e|] eqn:Hc;
    try (unfold startup in H; rewrite Hc in H; discriminate).
  destruct (merge_config args config) as [tr [s'|e|]] eqn:Hm;
    try (unfold startup in H; rewrite Hc in H; simpl in H; rewrite Hm in H;
         discriminate).
  pose proof (merge_config_silent _ _ _ _ Hm) as ->.
  rewrite (startup_after_merge _ _ _ _ Hc Hm) in H.
  exists config. unfold _open_serial, _create_vsync_waiter, call in H.
  destruct (device w) as [[]|e|]; simpl in H;
    [|destruct e as [| |[] exc]; discriminate|discriminate].
  destruct (cdll w) as [[]|e|]; simpl in H; try discriminate.
  destruct (symbol w) as [[]|e|]; simpl in H; try discriminate.
  injection H as <- <-. repeat split; try done.
  by rewrite app_nil_r.
Qed.

(** X4.  The wait primitive is called, a byte is written or the port is
    closed only after start-up has gone through: the config was loaded and
    merged, the serial port opened, the library loaded and the symbol found,
    in that order and before the first wait. *)
Theorem devices_ready_before_relay (args : arguments) (w : world) (e : event) :
  In e (main args w).1 ->
  e = Wait \/ e = SerialClose \/ (exists data, e = SerialWrite data) ->
  device w = Returns tt /\ cdll w = Returns tt /\ symbol w = Returns tt /\
  exists s,
    (main args w).1 =
      (opening_record (arg_log_level args) s ++ [SerialOpen (port s) (baudrate s)] ++
       loading_record (arg_log_level args) s ++
       [DllLoad (dll_path s); SymbolLookup "wait_for_vsync"] ++
       starting_record (arg_log_level args) s) ++
      (guarded_relay (arg_log_level args) (pulse_threshold s) (warmup s) (ticks w)).1.
Proof.
  intros Hin He.
  pose proof (startup_no_relay_calls args w) as Hs.
  rewrite List.Forall_forall in Hs.
  unfold main in *. destruct (startup args w) as [pre [s|x|]] eqn:Hst; simpl in *.
  - apply startup_returns in Hst as (config & _ & _ & Hd & Hl & Hy & ->).
    repeat (split; [done|]). exists s. by destruct (guarded_relay _ _ _ _).
  - destruct (Hs e Hin) as (H1 & H2 & H3).
    destruct He as [->|[->|[data ->]]]; [done|done|by destruct (H3 data)].
  - destruct (Hs e Hin) as (H1 & H2 & H3).
    destruct He as [->|[->|[data ->]]]; [done|done|by destruct (H3 data)].
Qed.

(** A run that reaches its first wait, with [--log-level warning]. *)
Lemma devices_ready_before_relay_witness :
  device (World Missing (Returns tt) (Returns tt) (Returns tt) []) = Returns tt /\
  cdll (World Missing (Returns tt) (Returns tt) (Returns tt) []) = Returns tt /\
  symbol (World Missing (Returns tt) (Returns tt) (Returns tt) []) = Returns tt /\
  exists s,
    (main (Arguments (PurePath "vsync.config.json") (Some "COM5") (Some "vs.dll")
             None None None Warning)
          (World Missing (Returns tt) (Returns tt) (Returns tt) [])).1 =
      (opening_record Warning s ++ [SerialOpen (port s) (baudrate s)] ++
       loading_record Warning s ++
       [DllLoad (dll_path s); SymbolLookup "wait_for_vsync"] ++
       starting_record Warning s) ++
      (guarded_relay Warning (pulse_threshold s) (warmup s) []).1.
Proof.
  apply (devices_ready_before_relay
    (Arguments (PurePath "vsync.config.json") (Some "COM5") (Some "vs.dll")
       None None None Warning)
    (World Missing (Returns tt) (Returns tt) (Returns tt) [])
    Wait).
  - vm_compute. tauto.
  - by left.
Defined.

(** X5.  [ser.close()] is called at most once, and it is the last thing
    [main] does: if the trace has a close, the close ends the trace, and
    [main] has ended too. *)
Theorem close_is_last (args : arguments) (w : world) :
  In SerialClose (main args w).1 ->
  exists tr,
    (main args w).1 = tr ++ [SerialClose] /\
    ~ In SerialClose tr /\
    (main args w).2 <> Waiting.
Proof.
  intros Hin.
  pose proof (startup_no_relay_calls args w) as Hs.
  pose proof (fun s => relay_session_calls (pulse_threshold s) (warmup s) (ticks w)) as Hr.
  rewrite List.Forall_forall in Hs.
  unfold main in *. destruct (startup args w) as [pre [s|x|]] eqn:Hst; simpl in *;
    try (by destruct (Hs _ Hin) as (_ & H & _)).
  specialize (Hr s). rewrite List.Forall_forall in Hr.
  rewrite guarded_relay_shutdown in *.
  assert (~ In SerialClose pre) as Hpre by (intros H; by destruct (Hs _ H) as (_ & ? & _)).
  assert (~ In SerialClose (exit_record (arg_log_level args))) as Hrec.
  { unfold exit_record. destruct (_ <=? _); simpl; intuition (try discriminate). }
  destruct (relay_session (pulse_threshold s) (warmup s) (ticks w)) as [tr r].
  assert (~ In SerialClose tr) as Htr.
  { intros H. by destruct (Hr _ H). }
  destruct r as [[]|x|]; simpl in *.
  - exists (pre ++ tr). rewrite app_assoc. repeat split; try done.
    rewrite in_app_iff. tauto.
  - destruct x; simpl in *.
    + exists (pre ++ tr ++ exit_record (arg_log_level args)).
      rewrite <- !app_assoc. repeat split; try done.
      rewrite !in_app_iff. tauto.
    + exists (pre ++ tr). rewrite app_assoc. repeat split; try done.
      rewrite in_app_iff. tauto.
    + exists (pre ++ tr). rewrite app_assoc. repeat split; try done.
      rewrite in_app_iff. tauto.
  - rewrite in_app_iff in Hin. tauto.
Qed.

(** An interrupt in the first wait. *)
Lemma close_is_last_witness :
  exists tr,
    (main (Arguments (PurePath "vsync.config.json") (Some "COM5") (Some "vs.dll")
             None None None Info)
          (World Missing (Returns tt) (Returns tt) (Returns tt)
             [Tick (Raises KeyboardInterrupt) (Returns 0%float) (Returns tt)])).1 =
      tr ++ [SerialClose] /\
    ~ In SerialClose tr /\
    (main (Arguments (PurePath "vsync.config.json") (Some "COM5") (Some "vs.dll")
             None None None Info)
          (World Missing (Returns tt) (Returns tt) (Returns tt)
             [Tick (Raises KeyboardInterrupt) (Returns 0%float) (Returns tt)])).2 <>
      Waiting.
Proof.
  apply (close_is_last
    (Arguments (PurePath "vsync.config.json") (Some "COM5") (Some "vs.dll")
       None None None Info)
    (World Missing (Returns tt) (Returns tt) (Returns tt)
       [Tick (Raises KeyboardInterrupt) (Returns 0%float) (Returns tt)])).
  vm_compute. tauto.
Defined.

(** X6.  [main] returns only one way: an interrupt taken inside the [try:]
    (in warm-up or in the loop), after which the port is closed; and the
    value it returns is 0.  No other run ends with exit status 0. *)
Theorem returns_only_on_interrupt (args : arguments) (w : world) (code : Z) :
  (main args w).2 = Returns code ->
  code = 0 /\
  exists pre s tr,
    startup args w = (pre, Returns s) /\
    relay_session (pulse_threshold s) (warmup s) (ticks w) =
      (tr, Raises KeyboardInterrupt) /\
    (main args w).1 = pre ++ tr ++ exit_record (arg_log_level args) ++ [SerialClose].
Proof.
  unfold main. destruct (startup args w) as [pre [s|x|]] eqn:Hst; simpl;
    try discriminate.
  rewrite guarded_relay_shutdown.
  pose proof (relay_session_never_returns (pulse_threshold s) (warmup s) (ticks w)) as Hn.
  destruct (relay_session (pulse_threshold s) (warmup s) (ticks w)) as [tr r] eqn:Hr.
  destruct r as [a|x|]; simpl in *; [by destruct (Hn a)| |discriminate].
  destruct x; simpl; try discriminate.
  intros [= <-]. split; [done|]. by exists pre, s, tr.
Qed.

(** An interrupt after one accepted edge. *)
Lemma returns_only_on_interrupt_witness :
  exists pre s tr,
    startup (Arguments (PurePath "vsync.config.json") (Some "COM5") (Some "vs.dll")
               None None None Info)
            (World Missing (Returns tt) (Returns tt) (Returns tt)
               [Tick (Returns 1) (Returns 100%float) (Returns tt);
                Tick (Raises KeyboardInterrupt) (Returns 0%float) (Returns tt)]) =
      (pre, Returns s) /\
    relay_session (pulse_threshold s) (warmup s)
      [Tick (Returns 1) (Returns 100%float) (Returns tt);
       Tick (Raises KeyboardInterrupt) (Returns 0%float) (Returns tt)] =
      (tr, Raises KeyboardInterrupt) /\
    (main (Arguments (PurePath "vsync.config.json") (Some "COM5") (Some "vs.dll")
             None None None Info)
          (World Missing (Returns tt) (Returns tt) (Returns tt)
             [Tick (Returns 1) (Returns 100%float) (Returns tt);
              Tick (Raises KeyboardInterrupt) (Returns 0%float) (Returns tt)])).1 =
      pre ++ tr ++ exit_record Info ++ [SerialClose].
Proof.
  apply (returns_only_on_interrupt
    (Arguments (PurePath "vsync.config.json") (Some "COM5") (Some "vs.dll")
       None None None Info)
    (World Missing (Returns tt) (Returns tt) (Returns tt)
       [Tick (Returns 1) (Returns 100%float) (Returns tt);
        Tick (Raises KeyboardInterrupt) (Returns 0%float) (Returns tt)])
    0 eq_refl).
Defined.

(** ** Spurious wakes, odd thresholds and odd warm-up counts *)

Lemma writes_app (tr1 tr2 : list event) :
  writes (tr1 ++ tr2) = writes tr1 ++ writes tr2.
Proof. apply List.filter_app. Qed.

Lemma writes_waits (n : nat) : writes (replicate n Wait) = [].
Proof. induction n as [|n IH]; [done|]. simpl. apply IH. Qed.

(** X7.  Returns of the wait primitive other than ACCEPT change nothing,
    wherever they fall in a run: with or without them the same bytes are
    written and the run ends the same way. *)
Theorem spurious_wakes_are_invisible (threshold : pyval) (last_pulse : float)
    (before idle after : list tick) :
  forallb spurious idle = true ->
  writes (relay threshold last_pulse (before ++ idle ++ after)).1 =
    writes (relay threshold last_pulse (before ++ after)).1 /\
  (relay threshold last_pulse (before ++ idle ++ after)).2 =
    (relay threshold last_pulse (before ++ after)).2.
Proof.
  intros Hi. revert last_pulse.
  induction before as [|t before IH]; intros last_pulse.
  - simpl app. rewrite (relay_spurious _ _ _ _ Hi). simpl.
    by rewrite writes_app, writes_waits.
  - change ((t :: before) ++ idle ++ after) with (t :: (before ++ idle ++ after)).
    change ((t :: before) ++ after) with (t :: (before ++ after)).
    rewrite !relay_cons.
    destruct (next (iteration threshold last_pulse t)); simpl; try done.
    specialize (IH (pulse (iteration threshold last_pulse t))) as [IHw IHr].
    destruct (relay _ _ (before ++ idle ++ after)) as [tr1 r1].
    destruct (relay _ _ (before ++ after)) as [tr2 r2]. simpl in *.
    split; [|done]. by rewrite !writes_app, IHw.
Qed.

(** Two spurious wakes between two accepted edges. *)
Lemma spurious_wakes_are_invisible_witness :
  writes (relay default_pulse_threshold no_pulse
            ([Tick (Returns 1) (Returns 100%float) (Returns tt)] ++
             [Tick (Returns 0) (Returns 101%float) (Returns tt);
              Tick (Returns (-1)) (Returns 102%float) (Returns tt)] ++
             [Tick (Returns 1) (Returns 103%float) (Returns tt)])).1 =
    [SerialWrite PULSE_BYTE; SerialWrite PULSE_BYTE].
Proof.
  rewrite (proj1 (spurious_wakes_are_invisible default_pulse_threshold no_pulse
    [Tick (Returns 1) (Returns 100%float) (Returns tt)]
    [Tick (Returns 0) (Returns 101%float) (Returns tt);
     Tick (Returns (-1)) (Returns 102%float) (Returns tt)]
    [Tick (Returns 1) (Returns 103%float) (Returns tt)] eq_refl)).
  reflexivity.
Defined.

(** X8.  A [pulse_threshold] that no float compares with (a string, a list,
    an object) is taken from the config file as it is; warm-up and spurious
    wakes go by, and the first ACCEPT ends the relay with the [TypeError] of
    the comparison, before anything is written. *)
Theorem threshold_not_a_number (N : nat) (threshold : pyval)
    (config : gmap string pyval) (warm idle rest : list tick) (t : tick) (now : float) :
  config !! "pulse_threshold" = Some threshold ->
  truthy threshold = true ->
  comparable threshold = false ->
  length warm = N ->
  forallb came_back warm = true ->
  forallb spurious idle = true ->
  vsync_func t = Returns 1 ->
  perf_counter t = Returns now ->
  merged_pulse_threshold PNone (PDict config) = ret threshold /\
  exists msg,
    relay_session threshold (Z.of_nat N) (warm ++ idle ++ t :: rest) =
      (replicate (N + length idle + 1) Wait, Raises (Exception TypeError msg)).
Proof.
  intros Hk Ht Hn <- Hw Hi Hv Hc. split.
  - rewrite merged_pulse_threshold_eq. simpl. rewrite Hk. simpl.
    unfold py_or. by rewrite Ht.
  - assert (exists msg, forall x,
              py_float_lt x threshold = Raises (Exception TypeError msg)) as [msg Hx].
    { destruct threshold; try discriminate; by eexists. }
    exists msg.
    rewrite (relay_session_warm _ _ _ Hw), (relay_spurious _ _ _ _ Hi), relay_cons.
    unfold iteration. rewrite Hv, Hc, Hx. simpl.
    by rewrite !replicate_add, <- !app_assoc.
Qed.

(** ["pulse_threshold": "fast"] in the config file. *)
Lemma threshold_not_a_number_witness :
  merged_pulse_threshold PNone (PDict {[ "pulse_threshold" := PStr "fast" ]}) =
    ret (PStr "fast") /\
  exists msg,
    relay_session (PStr "fast") 1
      ([Tick (Returns 1) (Returns 1%float) (Returns tt)] ++
       [Tick (Returns 0) (Returns 2%float) (Returns tt)] ++
       Tick (Returns 1) (Returns 3%float) (Returns tt) :: []) =
      (replicate (1 + 1 + 1) Wait, Raises (Exception TypeError msg)).
Proof.
  apply (threshold_not_a_number 1 (PStr "fast") {[ "pulse_threshold" := PStr "fast" ]}
    [Tick (Returns 1) (Returns 1%float) (Returns tt)]
    [Tick (Returns 0) (Returns 2%float) (Returns tt)] []
    (Tick (Returns 1) (Returns 3%float) (Returns tt)) 3);
    vm_compute; reflexivity.
Defined.

(** X9.  A zero or negative warm-up count means no warm-up: the relay loop
    starts at the first answer of the wait primitive. *)
Theorem warm_up_not_positive (threshold : pyval) (warmup : Z) (ts : list tick) :
  warmup <= 0 ->
  relay_session threshold warmup ts = relay threshold no_pulse ts.
Proof.
  intros H. unfold relay_session.
  replace (Z.to_nat warmup) with O by lia. simpl.
  by destruct (relay threshold no_pulse ts).
Qed.

(** [--warmup -5]. *)
Lemma warm_up_not_positive_witness :
  relay_session default_pulse_threshold (-5)
    [Tick (Returns 1) (Returns 100%float) (Returns tt)] =
  relay default_pulse_threshold no_pulse
    [Tick (Returns 1) (Returns 100%float) (Returns tt)].
Proof.
  apply (warm_up_not_positive default_pulse_threshold (-5)
    [Tick (Returns 1) (Returns 100%float) (Returns tt)]).
  lia.
Defined.

Lemma lstrip_no_digit (s : string) : no_digit s = true -> no_digit (lstrip s) = true.
Proof.
  induction s as [|c s IH]; [done|]. intros H. simpl.
  destruct (is_space c); [|done].
  apply IH. simpl in H. by destruct (digit c).
Qed.

(** Where there is no digit, the scan counts none. *)
Lemma scan_digits_no_digit (s : string) (acc : Z) (n : nat) (after_underscore : bool) :
  no_digit s = true ->
  scan_digits acc n after_underscore s = None \/
  exists rest, scan_digits acc n after_underscore s = Some (acc, n, rest).
Proof.
  revert after_underscore.
  induction s as [|c s IH]; intros after_underscore H; simpl.
  - destruct after_underscore; eauto.
  - simpl in H. destruct (digit c); [discriminate|].
    destruct (Ascii.eqb c "_"); destruct after_underscore; eauto.
Qed.

Lemma int_literal_no_digit (s literal : string) (negative : bool) :
  no_digit literal = true -> int_literal s negative literal = invalid_literal s.
Proof.
  intros H. unfold int_literal.
  destruct literal as [|c l]; [done|].
  destruct (Ascii.eqb c "_"); [done|].
  by destruct (scan_digits_no_digit (String c l) 0 0 false H) as [->|[rest ->]].
Qed.

Lemma int_of_str_no_digit (s : string) :
  no_digit s = true -> int_of_str s = invalid_literal s.
Proof.
  intros H%lstrip_no_digit. unfold int_of_str.
  destruct (lstrip s) as [|c l]; [done|].
  assert (no_digit l = true) as Hl by (simpl in H; by destruct (digit c)).
  destruct (Ascii.eqb c "-"); [by apply int_literal_no_digit|].
  destruct (Ascii.eqb c "+"); by apply int_literal_no_digit.
Qed.

(** [int()] raises on each of them, with the class that goes with it. *)
Lemma py_int_not_an_int (v : pyval) (cls : exn_class) :
  not_an_int v = Some cls -> exists msg, py_int v = Raises (Exception cls msg).
Proof.
  destruct v as [| | |f|s| | |]; simpl; try discriminate;
    try (intros [= <-]; by eexists).
  - unfold int_of_float. destruct (Prim2SF f); try discriminate;
      intros [= <-]; by eexists.
  - destruct (no_digit s) eqn:H; [|discriminate].
    intros [= <-]. rewrite (int_of_str_no_digit _ H). by eexists.
Qed.

(** X10.  A [warmup] value in the config file that is no integer (a word,
    an array, an object, NaN, an infinity) is not reported as a usage
    error: the conversion is outside the [try:] of the required options, so
    [main] ends with the exception of [int()] itself ([ValueError] for a
    string without a digit and for NaN, [OverflowError] for an infinity,
    [TypeError] for an array or an object), before anything is logged or
    opened; and so it ends for whatever else [int()] raises on. *)
Theorem warmup_not_an_int (args : arguments) (w : world)
    (config : gmap string pyval) (required : pyval * path) (v : pyval) :
  _load_config (arg_config args) (file w) = Returns (PDict config) ->
  required_options args (PDict config) = ([], Returns required) ->
  arg_warmup args = None ->
  config !! "warmup" = Some v ->
  truthy v = true ->
  (forall cls, not_an_int v = Some cls ->
     exists msg, main args w = ([], Raises (Exception cls msg))) /\
  (forall e, py_int v = Raises e -> main args w = ([], Raises e)).
Proof.
  intros Hc Hr Ha Hk Ht.
  assert (forall e, py_int v = Raises e -> main args w = ([], Raises e)) as H.
  { intros e He. unfold main, startup. rewrite Hc. simpl.
    rewrite merge_config_eq, Hr, Ha. simpl. rewrite Hk. simpl.
    unfold py_or. by rewrite Ht, He. }
  split; [|exact H].
  intros cls [msg Hmsg]%py_int_not_an_int. exists msg. by apply H.
Qed.

(** ["warmup": "soon"], and ["warmup": [3]], beside a port and a library. *)
Lemma warmup_not_an_int_witness :
  (exists msg,
     main (Arguments (PurePath "vsync.config.json") None None None None None Info)
          (World (Parsed {[ "port" := PStr "COM5"; "dll" := PStr "vs.dll";
                            "warmup" := PStr "soon" ]})
             (Returns tt) (Returns tt) (Returns tt) []) =
       ([], Raises (Exception ValueError msg))) /\
  (exists msg,
     main (Arguments (PurePath "vsync.config.json") None None None None None Info)
          (World (Parsed {[ "port" := PStr "COM5"; "dll" := PStr "vs.dll";
                            "warmup" := PList [PInt 3] ]})
             (Returns tt) (Returns tt) (Returns tt) []) =
       ([], Raises (Exception TypeError msg))).
Proof.
  split.
  - refine (proj1 (warmup_not_an_int
      (Arguments (PurePath "vsync.config.json") None None None None None Info)
      (World (Parsed {[ "port" := PStr "COM5"; "dll" := PStr "vs.dll";
                        "warmup" := PStr "soon" ]})
         (Returns tt) (Returns tt) (Returns tt) [])
      {[ "port" := PStr "COM5"; "dll" := PStr "vs.dll"; "warmup" := PStr "soon" ]}
      (PStr "COM5", PurePath "vs.dll") (PStr "soon") _ _ _ _ _) ValueError _);
      vm_compute; reflexivity.
  - refine (proj1 (warmup_not_an_int
      (Arguments (PurePath "vsync.config.json") None None None None None Info)
      (World (Parsed {[ "port" := PStr "COM5"; "dll" := PStr "vs.dll";
                        "warmup" := PList [PInt 3] ]})
         (Returns tt) (Returns tt) (Returns tt) [])
      {[ "port" := PStr "COM5"; "dll" := PStr "vs.dll"; "warmup" := PList [PInt 3] ]}
      (PStr "COM5", PurePath "vs.dll") (PList [PInt 3]) _ _ _ _ _) TypeError _);
      vm_compute; reflexivity.
Defined.

(** ** NaN as a threshold *)

Lemma float_ltb_nan (x : float) : (x <? nan)%float = false.
Proof.
  rewrite ltb_spec. change (Prim2SF nan) with S754_nan.
  unfold SFltb, SFcompare. by destruct (Prim2SF x).
Qed.

(** X11.  NaN is a threshold the merge accepts (JSON's [NaN], or
    [--pulse-threshold nan]; it is truthy), and it switches the debounce
    filter off: every ACCEPT is written, however close to the one before. *)
Theorem nan_threshold_never_debounces (config : gmap string pyval)
    (last_pulse now : float) (t : tick) :
  vsync_func t = Returns 1 ->
  perf_counter t = Returns now ->
  merged_pulse_threshold (PFloat nan) (PDict config) = ret (PFloat nan) /\
  iteration (PFloat nan) last_pulse t =
    Pass [Wait; SerialWrite PULSE_BYTE] now (ser_write t).
Proof.
  intros Hv Hc. split.
  - by rewrite merged_pulse_threshold_eq.
  - apply iteration_accepted; try done. simpl. by rewrite float_ltb_nan.
Qed.

(** A second edge at the very clock reading of the first. *)
Lemma nan_threshold_never_debounces_witness :
  merged_pulse_threshold (PFloat nan) (PDict ∅) = ret (PFloat nan) /\
  iteration (PFloat nan) 100 (Tick (Returns 1) (Returns 100%float) (Returns tt)) =
    Pass [Wait; SerialWrite PULSE_BYTE] 100 (Returns tt).
Proof.
  apply (nan_threshold_never_debounces ∅ 100 100
           (Tick (Returns 1) (Returns 100%float) (Returns tt))); reflexivity.
Defined.

(** ** The log level *)

Lemma quiet_app (tr1 tr2 : list event) : quiet (tr1 ++ tr2) = quiet tr1 ++ quiet tr2.
Proof. apply List.filter_app. Qed.

Lemma quiet_LOGGER_info (configured : level) (fmt : string) (args : list pyval) :
  quiet (LOGGER_info configured fmt args).1 = [].
Proof. unfold LOGGER_info. by destruct (_ <=? _). Qed.

Lemma same_but_logs_bind {A B : Type} (m1 m2 : proc A) (k1 k2 : A -> proc B) :
  same_but_logs m1 m2 ->
  (forall a, same_but_logs (k1 a) (k2 a)) ->
  same_but_logs (bind m1 k1) (bind m2 k2).
Proof.
  destruct m1 as [tr1 r1], m2 as [tr2 r2]. intros [Ht Hr] Hk. simpl in *. subst r2.
  destruct r1 as [a|e|]; simpl; try done.
  destruct (Hk a) as [Hka Hkr]. destruct (k1 a), (k2 a). simpl in *.
  split; [|done]. simpl. by rewrite !quiet_app, Ht, Hka.
Qed.

Lemma same_but_logs_startup (l : level) (args : arguments) (w : world) :
  same_but_logs (startup (with_log_level l args) w) (startup args w).
Proof.
  unfold startup.
  apply same_but_logs_bind; [done|]. intros config.
  apply same_but_logs_bind; [done|]. intros s.
  apply same_but_logs_bind; [split; [by rewrite !quiet_LOGGER_info|
    by rewrite (LOGGER_info_returns (arg_log_level _)),
               (LOGGER_info_returns (arg_log_level args))]|]. intros _.
  apply same_but_logs_bind; [done|]. intros _.
  apply same_but_logs_bind; [split; [by rewrite !quiet_LOGGER_info|
    by rewrite (LOGGER_info_returns (arg_log_level _)),
               (LOGGER_info_returns (arg_log_level args))]|]. intros _.
  apply same_but_logs_bind; [done|]. intros _.
  apply same_but_logs_bind; [split; [by rewrite !quiet_LOGGER_info|
    by rewrite (LOGGER_info_returns (arg_log_level _)),
               (LOGGER_info_returns (arg_log_level args))]|]. intros _.
  done.
Qed.

Lemma same_but_logs_guarded_relay (l1 l2 : level) (threshold : pyval)
    (warmup : Z) (ts : list tick) :
  same_but_logs (guarded_relay l1 threshold warmup ts)
    (guarded_relay l2 threshold warmup ts).
Proof.
  rewrite !guarded_relay_shutdown. unfold shutdown, exit_record.
  destruct (relay_session threshold warmup ts) as [tr [a|e|]]; try done.
  destruct e; try done. split; [|done]. simpl.
  rewrite !quiet_app.
  by destruct (levelno l1 <=? 20), (levelno l2 <=? 20).
Qed.

Lemma LOGGER_info_silent (l : level) (fmt : string) (args : list pyval) :
  levelno Info < levelno l -> LOGGER_info l fmt args = ret tt.
Proof.
  intros H. unfold LOGGER_info.
  destruct (Z.leb_spec (levelno l) (levelno Info)); [lia|done].
Qed.

Lemma main_silent (args : arguments) (w : world) :
  levelno Info < levelno (arg_log_level args) ->
  Forall (fun e => is_log e = false) (main args w).1.
Proof.
  intros H. unfold main, startup, guarded_relay, merge_config, required_options,
    merged_baudrate, merged_pulse_threshold, merged_warmup, _open_serial,
    _create_vsync_waiter, parser_error, call.
  repeat first
    [ eapply Forall_impl; [apply relay_session_calls|]; by intros e [->| ->]
    | apply Forall_bind; [|intros ?]
    | apply Forall_try_finally
    | apply Forall_try_except;
        [|first [apply Forall_except; intros exc
                |intros e h; destruct e; try discriminate; intros [= <-]]]
    | apply Forall_pure
    | rewrite (LOGGER_info_silent _ _ _ H); by constructor
    | by repeat constructor ].
Qed.

Lemma quiet_id (tr : list event) :
  Forall (fun e => is_log e = false) tr -> quiet tr = tr.
Proof.
  induction 1 as [|e tr He _ IH]; [done|].
  unfold quiet in *. simpl. by rewrite He, IH.
Qed.

(** X12.  The log level changes nothing but the log: with any two levels
    [main] makes the same calls in the same order and ends the same way,
    log records apart; and at [warning] and [error] it logs nothing at
    all. *)
Theorem log_level_only_filters_the_log (l : level) (args : arguments) (w : world) :
  quiet (main (with_log_level l args) w).1 = quiet (main args w).1 /\
  (main (with_log_level l args) w).2 = (main args w).2 /\
  quiet (main (with_log_level Warning args) w).1 = (main (with_log_level Warning args) w).1 /\
  quiet (main (with_log_level Error args) w).1 = (main (with_log_level Error args) w).1.
Proof.
  assert (same_but_logs (main (with_log_level l args) w) (main args w)) as [H1 H2].
  { unfold main. apply same_but_logs_bind; [apply same_but_logs_startup|].
    intros s. apply same_but_logs_guarded_relay. }
  repeat split; try done; apply quiet_id, main_silent; simpl; lia.
Qed.

(** ** How many bytes *)

Lemma iteration_writes_bound (threshold : pyval) (last_pulse : float) (t : tick) :
  (length (writes (calls (iteration threshold last_pulse t))) <=
     if accepts t then 1 else 0)%nat.
Proof.
  unfold iteration, accepts.
  destruct (vsync_func t) as [status| |]; simpl; try lia.
  destruct (status =? 1); simpl; [|lia].
  destruct (perf_counter t) as [now| |]; simpl; try lia.
  destruct (py_float_lt _ _) as [[]| |]; simpl; lia.
Qed.

Lemma relay_writes_bound (threshold : pyval) (last_pulse : float) (ts : list tick) :
  (length (writes (relay threshold last_pulse ts).1) <=
     length (List.filter accepts ts))%nat.
Proof.
  revert last_pulse. induction ts as [|t ts IH]; intros last_pulse; [simpl; lia|].
  rewrite relay_cons.
  pose proof (iteration_writes_bound threshold last_pulse t) as Ht.
  specialize (IH (pulse (iteration threshold last_pulse t))).
  destruct (next (iteration threshold last_pulse t)); simpl;
    [destruct (relay _ _ ts) as [tr r]; simpl in *;
     rewrite writes_app, length_app| |];
    destruct (accepts t); simpl; lia.
Qed.

Lemma warm_up_hands_on_a_suffix (n : nat) (ts rest : list tick) (tr : list event) :
  warm_up n ts = (tr, Returns rest) -> exists warm, ts = warm ++ rest.
Proof.
  revert ts tr. induction n as [|n IH]; intros ts tr; simpl.
  - intros [= _ <-]. by exists [].
  - destruct ts as [|t ts]; [discriminate|].
    destruct (vsync_func t); try discriminate.
    destruct (warm_up n ts) as [tr' r] eqn:E. intros [= _ ->].
    destruct (IH _ _ E) as [warm ->]. by exists (t :: warm).
Qed.

Lemma writes_none (tr : list event) :
  Forall (fun e => forall data, e <> SerialWrite data) tr -> writes tr = [].
Proof.
  induction 1 as [|e tr He _ IH]; [done|].
  unfold writes in *. simpl. destruct e; simpl; try apply IH. by destruct (He data).
Qed.

Lemma relay_session_writes_bound (threshold : pyval) (warmup : Z) (ts : list tick) :
  (length (writes (relay_session threshold warmup ts).1) <=
     length (List.filter accepts ts))%nat.
Proof.
  unfold relay_session.
  assert (writes (warm_up (Z.to_nat warmup) ts).1 = []) as Hq.
  { apply writes_none. eapply Forall_impl; [apply warm_up_only_waits|].
    by intros e -> data. }
  destruct (warm_up (Z.to_nat warmup) ts) as [tr [rest|e|]] eqn:E; simpl in *;
    [|rewrite Hq; simpl; lia..].
  apply warm_up_hands_on_a_suffix in E as [warm ->].
  pose proof (relay_writes_bound threshold no_pulse rest) as Hr.
  destruct (relay threshold no_pulse rest) as [tr' r]. simpl in *.
  rewrite writes_app, Hq, List.filter_app. simpl. rewrite length_app. lia.
Qed.

(** X13.  [main] never writes more marker bytes than the wait primitive
    has returned ACCEPT: the writes of a run are at most as many as the
    answers with status 1. *)
Theorem writes_bounded_by_accepts (args : arguments) (w : world) :
  (length (writes (main args w).1) <= length (List.filter accepts (ticks w)))%nat.
Proof.
  pose proof (writes_none _ (startup_never_writes args w)) as Hp.
  unfold main. destruct (startup args w) as [pre [s|e|]]; simpl in *;
    [|rewrite Hp; simpl; lia..].
  rewrite guarded_relay_shutdown.
  pose proof (relay_session_writes_bound (pulse_threshold s) (warmup s) (ticks w)) as Hr.
  destruct (relay_session (pulse_threshold s) (warmup s) (ticks w)) as [tr r].
  simpl in Hr. unfold shutdown, exit_record.
  destruct r as [[]|e|]; [|destruct e|]; simpl;
    rewrite ?writes_app, ?Hp; simpl;
    try destruct (levelno (arg_log_level args) <=? 20); simpl;
    rewrite ?app_nil_r, ?length_app; simpl; lia.
Qed.

(** ** What the config file may hold, and what the command line alone gives *)

Lemma resolve_option_insert (cli_value : pyval) (config : gmap string pyval)
    (key k : string) (v : pyval) (required : bool) :
  k <> key ->
  _resolve_option cli_value (PDict (<[k:=v]> config)) key required =
    _resolve_option cli_value (PDict config) key required.
Proof.
  intros H. destruct cli_value; try reflexivity.
  by rewrite !resolve_dict, lookup_insert_ne.
Qed.

Lemma merge_config_insert (args : arguments) (config : gmap string pyval)
    (k : string) (v : pyval) :
  ~ In k option_keys ->
  merge_config args (PDict (<[k:=v]> config)) = merge_config args (PDict config).
Proof.
  intros H. unfold option_keys in H. simpl in H.
  unfold merge_config, required_options, merged_baudrate, merged_pulse_threshold,
    merged_warmup.
  rewrite !resolve_option_insert; [done|intros ->; tauto..].
Qed.

(** X14.  Keys of the config file other than [port], [dll], [baudrate],
    [pulse_threshold] and [warmup] are ignored: adding one, with any value,
    changes nothing in what [main] does. *)
Theorem unknown_keys_are_ignored (args : arguments) (w : world)
    (config : gmap string pyval) (k : string) (v : pyval) :
  ~ In k option_keys ->
  main args (with_file (Parsed (<[k:=v]> config)) w) =
    main args (with_file (Parsed config) w).
Proof.
  intros H. unfold main, startup, with_file. simpl.
  by rewrite (merge_config_insert _ _ _ _ H).
Qed.

(** A ["comment"] key beside the port and the library. *)
Lemma unknown_keys_are_ignored_witness :
  main (Arguments (PurePath "vsync.config.json") None None None None None Info)
       (with_file
          (Parsed (<["comment" := PStr "bench rig"]>
                     {[ "port" := PStr "COM5"; "dll" := PStr "vs.dll" ]}))
          (World Missing (Returns tt) (Returns tt) (Returns tt) [])) =
  main (Arguments (PurePath "vsync.config.json") None None None None None Info)
       (with_file (Parsed {[ "port" := PStr "COM5"; "dll" := PStr "vs.dll" ]})
          (World Missing (Returns tt) (Returns tt) (Returns tt) [])).
Proof.
  apply (unknown_keys_are_ignored
    (Arguments (PurePath "vsync.config.json") None None None None None Info)
    (World Missing (Returns tt) (Returns tt) (Returns tt) [])
    {[ "port" := PStr "COM5"; "dll" := PStr "vs.dll" ]}
    "comment" (PStr "bench rig")).
  unfold option_keys. simpl. intuition discriminate.
Defined.

(** X15.  [--port] and [--dll] on the command line settle the required
    options whatever the config file holds for them (a null included); and
    with no config file at all the merge cannot fail: the baud rate and the
    threshold are the given ones unless absent or zero, when they are the
    defaults, and the warm-up count is the given one, or 0. *)
Theorem command_line_suffices (args : arguments) (p d : string) :
  arg_port args = Some p ->
  arg_dll args = Some d ->
  (forall config : pyval,
     required_options args config = ([], Returns (PStr p, PurePath d))) /\
  _load_config (arg_config args) Missing = Returns (PDict ∅) /\
  merge_config args (PDict ∅) =
    ([], Returns (Settings (PStr p) (PurePath d)
                    (py_or (of_option PInt (arg_baudrate args)) default_baudrate)
                    (py_or (of_option PFloat (arg_pulse_threshold args))
                       default_pulse_threshold)
                    (default 0 (arg_warmup args)))).
Proof.
  intros Hp Hd.
  assert (forall config : pyval,
            required_options args config = ([], Returns (PStr p, PurePath d))) as Hr.
  { intros config. unfold required_options. by rewrite Hp, Hd. }
  repeat split; try done.
  rewrite merge_config_eq, Hr. simpl.
  assert (forall cli key, resolved cli ∅ key = cli) as He.
  { intros cli key. unfold resolved. rewrite lookup_empty. by destruct cli. }
  rewrite !He.
  destruct (arg_warmup args) as [n|]; simpl; [|done].
  unfold py_or. simpl. by destruct (Z.eqb_spec n 0) as [->|].
Qed.

(** [--port COM5 --dll vs.dll --baudrate 115200 --warmup 3], no file. *)
Lemma command_line_suffices_witness :
  merge_config
    (Arguments (PurePath "vsync.config.json") (Some "COM5") (Some "vs.dll")
       (Some 115200) None (Some 3) Info) (PDict ∅) =
    ([], Returns (Settings (PStr "COM5") (PurePath "vs.dll") (PInt 115200)
                    default_pulse_threshold 3)).
Proof.
  apply (proj2 (proj2 (command_line_suffices
    (Arguments (PurePath "vsync.config.json") (Some "COM5") (Some "vs.dll")
       (Some 115200) None (Some 3) Info)
    "COM5" "vs.dll" eq_refl eq_refl))).
Defined.
